(** * The terminal screen buffer of [src/terminal/Screen.h]

    A shallow embedding of the cell, line and screen-buffer types of the
    terminal emulator, together with the operations that are defined inline
    in the header: the cell mutators, the constructor and [reset] of the
    screen buffer, the coordinate translations of origin mode and the
    clamping helpers, and cell equality.

    Unsigned machine integers are integers of [Z] whose wrap-around is
    written out where the code computes with them; [unsigned int] is 32 bits
    wide and [uint8_t] is 8 bits wide. *)

From Stdlib Require Import ZArith.
From stdpp Require Import gmap strings list.

Open Scope Z_scope.

(** ** Machine integers *)

(** Conversion to [unsigned int] (also [cursor_pos_t]). *)
Definition u32 (x : Z) : Z := x mod 2 ^ 32.

(** Conversion to [uint8_t]. *)
Definition u8 (x : Z) : Z := x mod 2 ^ 8.

(** The values of an [unsigned int] and of a [uint8_t]. *)
Definition is_u32 (x : Z) : Prop := 0 <= x < 2 ^ 32.
Definition is_u8 (x : Z) : Prop := 0 <= x < 2 ^ 8.

Arguments u32 : simpl never.
Arguments u8 : simpl never.

(** [std::clamp(v, lo, hi)]. *)
Definition clamp (v lo hi : Z) : Z :=
  if v <? lo then lo else if hi <? v then hi else v.

(** An [assert] in a function: [AssertHolds a] when the asserted condition is
    true and the function goes on to return with state [a]; [AssertFires a]
    when it is false. A debug build aborts there; a build with [NDEBUG] goes
    on with the state [a]. *)
Inductive Asserted (A : Type) : Type :=
  | AssertHolds (a : A)
  | AssertFires (a : A).
Arguments AssertHolds {A} a.
Arguments AssertFires {A} a.

(** The state a build with [NDEBUG] continues with. *)
Definition unchecked {A : Type} (r : Asserted A) : A :=
  match r with AssertHolds a => a | AssertFires a => a end.

(** ** Types declared in headers that [Screen.h] includes *)

(** Modelled from the spec: [Coordinate] is declared in [Commands.h], which is
    not among the sources. A coordinate is a pair (row, column) of
    [cursor_pos_t], 1-based. *)
Record Coordinate : Type := mkCoordinate {
  row : Z;
  column : Z
}.

(** Modelled from the spec: the default member values of [Coordinate] are in
    [Commands.h]; coordinates are 1-based and the home position is (1, 1). *)
Definition Coordinate_default : Coordinate := mkCoordinate 1 1.

(** Modelled from the spec: [WindowSize] is declared in [WindowSize.h]; a
    window size is (rows, columns). The fields are [unsigned int], as
    [std::clamp] in [clampToScreen] takes them together with
    [cursor_pos_t]. *)
Record WindowSize : Type := mkWindowSize {
  columns : Z;
  rows : Z
}.

(** Modelled from the spec: [Color] is declared in [Color.h]; it is the
    tagged variant Default, Indexed, Bright, Palette, RGB. *)
Inductive Color : Type :=
  | DefaultColor
  | IndexedColor (index : Z)
  | BrightColor (index : Z)
  | PaletteColor (index : Z)
  | RGBColor (red green blue : Z).

#[global] Instance Color_eq_dec : EqDecision Color.
Proof. solve_decision. Defined.

(** Modelled from the spec: [HyperlinkRef] is declared in [Hyperlink.h]; a
    hyperlink is identified by (id, uri) and a cell holds a shared reference
    to it, null when there is none. *)
Record HyperlinkInfo : Type := mkHyperlinkInfo {
  hyperlink_id : string;
  hyperlink_uri : string
}.

Definition HyperlinkRef : Type := option HyperlinkInfo.

(** Modelled from the spec: the enumerators of [Mode] are in [Commands.h];
    these are the modes of the spec's mode table. *)
Inductive Mode : Type :=
  | AutoWrap
  | Origin
  | LeftRightMargin
  | Insert
  | VisibleCursor
  | UseAlternateScreen
  | BracketedPaste
  | MouseProtocol
  | FocusEvents
  | KeypadMode.

#[global] Instance Mode_eq_dec : EqDecision Mode.
Proof. solve_decision. Defined.

Definition Mode_to_nat (m : Mode) : nat :=
  match m with
  | AutoWrap => 0 | Origin => 1 | LeftRightMargin => 2 | Insert => 3
  | VisibleCursor => 4 | UseAlternateScreen => 5 | BracketedPaste => 6
  | MouseProtocol => 7 | FocusEvents => 8 | KeypadMode => 9
  end%nat.

Definition Mode_of_nat (n : nat) : option Mode :=
  match n with
  | 0 => Some AutoWrap | 1 => Some Origin | 2 => Some LeftRightMargin
  | 3 => Some Insert | 4 => Some VisibleCursor | 5 => Some UseAlternateScreen
  | 6 => Some BracketedPaste | 7 => Some MouseProtocol | 8 => Some FocusEvents
  | 9 => Some KeypadMode | _ => None
  end%nat.

#[global] Instance Mode_countable : Countable Mode.
Proof.
  refine (inj_countable Mode_to_nat Mode_of_nat _).
  intros m. destruct m; reflexivity.
Defined.

(** ** Margins *)

Module Range.

Record t : Type := mk {
  from : Z;
  to : Z
}.

(** [length()]: [to - from + 1] in [unsigned int]. *)
Definition length (r : t) : Z := u32 (to r - from r + 1).

(** [contains(_value)]. *)
Definition contains (r : t) (value : Z) : bool :=
  (from r <=? value) && (value <=? to r).

End Range.

Record Margin : Type := mkMargin {
  vertical : Range.t;
  horizontal : Range.t
}.

(** ** Graphics attributes *)

Record GraphicsAttributes : Type := mkGraphicsAttributes {
  foregroundColor : Color;
  backgroundColor : Color;
  underlineColor : Color;
  styles : Z
}.

(** The default member values: three default colours and an empty style
    mask. *)
Definition GraphicsAttributes_default : GraphicsAttributes :=
  mkGraphicsAttributes DefaultColor DefaultColor DefaultColor 0.

(** [operator==] on [GraphicsAttributes]: the four fields, in the order of
    the source. *)
Definition GraphicsAttributes_eqb (a b : GraphicsAttributes) : bool :=
  bool_decide (backgroundColor a = backgroundColor b)
  && bool_decide (foregroundColor a = foregroundColor b)
  && (styles a =? styles b)
  && bool_decide (underlineColor a = underlineColor b).

(** ** Cells *)

Module Cell.

Definition MaxCodepoints : Z := 9.

(** The fields of [Cell]; [codepoints_] is the [std::array] of
    [MaxCodepoints] code points, [width_] and [codepointCount_] are
    [uint8_t]. *)
Record t : Type := mk {
  codepoints_ : list Z;
  attributes_ : GraphicsAttributes;
  width_ : Z;
  codepointCount_ : Z;
  hyperlink_ : HyperlinkRef
}.

(** The values of the C++ type: nine code points and two bytes. *)
Definition typed (c : t) : Prop :=
  List.length (codepoints_ c) = Z.to_nat MaxCodepoints
  /\ is_u8 (width_ c) /\ is_u8 (codepointCount_ c).

(** [constexpr Cell()]. *)
Definition default : t :=
  mk (replicate (Z.to_nat MaxCodepoints) 0) GraphicsAttributes_default 1 0 None.

(** [reset()]. *)
Definition reset (c : t) : t :=
  {| codepoints_ := codepoints_ c;
     attributes_ := GraphicsAttributes_default;
     width_ := 1;
     codepointCount_ := 0;
     hyperlink_ := None |}.

(** [reset(_attribs, _hyperlink)]. *)
Definition reset_with (c : t) (attribs : GraphicsAttributes)
    (hyperlink : HyperlinkRef) : t :=
  {| codepoints_ := codepoints_ c;
     attributes_ := attribs;
     width_ := 1;
     codepointCount_ := 0;
     hyperlink_ := hyperlink |}.

(** [codepoints()]: the view of the first [codepointCount_] code points. *)
Definition codepoints (c : t) : list Z :=
  take (Z.to_nat (codepointCount_ c)) (codepoints_ c).

(** [codepoint(i)]: [codepoints_[i]]; the array is read inside its bounds
    whenever [i] is below [MaxCodepoints]. *)
Definition codepoint (c : t) (i : nat) : Z := nth i (codepoints_ c) 0.

Definition codepointCount (c : t) : Z := codepointCount_ c.

Definition empty (c : t) : bool := codepointCount_ c =? 0.

Definition width (c : t) : Z := width_ c.

Definition attributes (c : t) : GraphicsAttributes := attributes_ c.

Definition hyperlink (c : t) : HyperlinkRef := hyperlink_ c.

Definition setHyperlink (c : t) (h : HyperlinkRef) : t :=
  {| codepoints_ := codepoints_ c;
     attributes_ := attributes_ c;
     width_ := width_ c;
     codepointCount_ := codepointCount_ c;
     hyperlink_ := h |}.

Section Width.

(** [unicode::width] of the unicode library, an [int] for every code
    point. *)
Variable unicode_width : Z -> Z.

(** [setCharacter(_codepoint)]; the assertion is on the stored byte. *)
Definition setCharacter (c : t) (cp : Z) : Asserted t :=
  let cps := <[0%nat := cp]> (codepoints_ c) in
  if negb (cp =? 0) then
    let c' :=
      {| codepoints_ := cps;
         attributes_ := attributes_ c;
         width_ := u8 (unicode_width cp);
         codepointCount_ := 1;
         hyperlink_ := hyperlink_ c |} in
    if negb (width_ c' =? 0) then AssertHolds c' else AssertFires c'
  else
    AssertHolds
      {| codepoints_ := cps;
         attributes_ := attributes_ c;
         width_ := 1;
         codepointCount_ := 0;
         hyperlink_ := hyperlink_ c |}.

(** The width [appendCharacter] computes for the code point it is given. *)
Definition appendWidth (cp : Z) : Z :=
  if cp =? 0xFE0F then 2 else unicode_width cp.

(** [appendCharacter(_codepoint)]: the returned [unsigned] and the cell. *)
Definition appendCharacter (c : t) (cp : Z) : Z * t :=
  if codepointCount_ c <? MaxCodepoints then
    let cps := <[Z.to_nat (codepointCount_ c) := cp]> (codepoints_ c) in
    let count := u8 (codepointCount_ c + 1) in
    let width := appendWidth cp in
    if width >? width_ c then
      (u32 (width - width_ c),
       {| codepoints_ := cps;
          attributes_ := attributes_ c;
          width_ := u8 width;
          codepointCount_ := count;
          hyperlink_ := hyperlink_ c |})
    else
      (0,
       {| codepoints_ := cps;
          attributes_ := attributes_ c;
          width_ := width_ c;
          codepointCount_ := count;
          hyperlink_ := hyperlink_ c |})
  else
    (1, c).

(** [Cell(_ch, _attrib)]: the default fields, then [setCharacter]. *)
Definition make (ch : Z) (attrib : GraphicsAttributes) : Asserted t :=
  setCharacter
    {| codepoints_ := replicate (Z.to_nat MaxCodepoints) 0;
       attributes_ := attrib;
       width_ := 1;
       codepointCount_ := 0;
       hyperlink_ := None |}
    ch.

End Width.

(** [operator==] on cells: the counts, the attributes, then the stored code
    points below the count, one index after the other. *)
Fixpoint codepoints_eqb_from (a b : t) (i n : nat) : bool :=
  match n with
  | O => true
  | S n' =>
      if negb (codepoint a i =? codepoint b i) then false
      else codepoints_eqb_from a b (S i) n'
  end.

Definition eqb (a b : t) : bool :=
  if negb (codepointCount a =? codepointCount b) then false
  else if negb (GraphicsAttributes_eqb (attributes a) (attributes b)) then false
  else codepoints_eqb_from a b 0 (Z.to_nat (codepointCount a)).

End Cell.

(** ** Lines *)

Module Line.

(** [buffer] is the [std::vector] of cells. *)
Record t : Type := mk {
  buffer : list Cell.t;
  marked : bool
}.

(** [Line(_numCols, _defaultCell)]: the vector of [_numCols] copies. *)
Definition make (numCols : Z) (defaultCell : Cell.t) : t :=
  {| buffer := replicate (Z.to_nat numCols) defaultCell; marked := false |}.

Definition size (l : t) : nat := List.length (buffer l).

(** [resize(_size)]: [std::vector::resize], which drops the cells from
    [_size] on or appends default-constructed cells up to [_size]. *)
Definition resize (l : t) (newSize : Z) : t :=
  {| buffer :=
       take (Z.to_nat newSize) (buffer l)
       ++ replicate (Z.to_nat newSize - List.length (buffer l))%nat
            Cell.default;
     marked := marked l |}.

End Line.

(** ** The cursor and the saved states *)

Module Cursor.

(** [struct Cursor : public Coordinate]: the base coordinate and the
    visibility. *)
Record t : Type := mk {
  coord : Coordinate;
  visible : bool
}.

(** [Cursor{}]. *)
Definition default : t := {| coord := Coordinate_default; visible := true |}.

(** [operator=(Coordinate const&)]: the coordinate is assigned, the
    visibility is kept. *)
Definition assign (c : t) (coords : Coordinate) : t :=
  {| coord := mkCoordinate (row coords) (column coords); visible := visible c |}.

End Cursor.

Module SavedState.

Record t : Type := mk {
  cursorPosition : Coordinate;
  graphicsRendition : GraphicsAttributes;
  autowrap : bool;
  originMode : bool
}.

End SavedState.

(** ** The screen buffer *)

Module ScreenBuffer.

(** [enum class Type]. *)
Inductive BufferType : Type := Main | Alternate.

(** The fields of [ScreenBuffer], in the order of their declaration. The
    iterators are positions: [currentLine] is an index into [lines], and a
    column iterator is the index of its line with the index of the cell in
    it. [savedStates] is the stack, top first. *)
Record t : Type := mk {
  type_ : BufferType;
  size_ : WindowSize;
  maxHistoryLineCount_ : option Z;
  margin_ : Margin;
  enabledModes_ : gset Mode;
  cursor : Cursor.t;
  lines : list Line.t;
  savedLines : list Line.t;
  autoWrap : bool;
  wrapPending : bool;
  cursorRestrictedToMargin : bool;
  tabWidth : Z;
  tabs : list Z;
  graphicsRendition : GraphicsAttributes;
  savedStates : list SavedState.t;
  currentLine : nat;
  currentColumn : nat * nat;
  lastColumn : nat * nat;
  lastCursor : Cursor.t;
  currentHyperlink : HyperlinkRef;
  hyperlinks : gmap string HyperlinkInfo
}.

(** The constructor: the three arguments, the margins over the whole screen,
    [_size.rows] lines of [_size.columns] default cells, and the default
    member values of every other field. [verifyState], which the constructor
    calls last, is a [const] member. *)
Definition make (type : BufferType) (size : WindowSize)
    (maxHistoryLineCount : option Z) : t :=
  {| type_ := type;
     size_ := size;
     maxHistoryLineCount_ := maxHistoryLineCount;
     margin_ := {| vertical := Range.mk 1 (rows size);
                   horizontal := Range.mk 1 (columns size) |};
     enabledModes_ := ∅;
     cursor := Cursor.default;
     lines := replicate (Z.to_nat (rows size))
                (Line.make (columns size) Cell.default);
     savedLines := [];
     autoWrap := false;
     wrapPending := false;
     cursorRestrictedToMargin := false;
     tabWidth := 8;
     tabs := [];
     graphicsRendition := GraphicsAttributes_default;
     savedStates := [];
     currentLine := 0%nat;
     currentColumn := (0%nat, 0%nat);
     lastColumn := (0%nat, 0%nat);
     lastCursor := Cursor.default;
     currentHyperlink := None;
     hyperlinks := ∅ |}.

(** [reset()]. *)
Definition reset (sb : t) : t :=
  make (type_ sb) (size_ sb) (maxHistoryLineCount_ sb).

(** [size()]. *)
Definition size (sb : t) : WindowSize := size_ sb.

(** [isModeEnabled(_mode)]. *)
Definition isModeEnabled (sb : t) (m : Mode) : bool :=
  bool_decide (m ∈ enabledModes_ sb).

(** [realCursorPosition()]. *)
Definition realCursorPosition (sb : t) : Coordinate :=
  mkCoordinate (row (Cursor.coord (cursor sb)))
               (column (Cursor.coord (cursor sb))).

(** [cursorPosition()]. *)
Definition cursorPosition (sb : t) : Coordinate :=
  if negb (cursorRestrictedToMargin sb) then realCursorPosition sb
  else
    mkCoordinate
      (u32 (u32 (row (Cursor.coord (cursor sb))
                 - Range.from (vertical (margin_ sb))) + 1))
      (u32 (u32 (column (Cursor.coord (cursor sb))
                 - Range.from (horizontal (margin_ sb))) + 1)).

(** [origin()]. *)
Definition origin (sb : t) : Coordinate :=
  if cursorRestrictedToMargin sb then
    mkCoordinate (Range.from (vertical (margin_ sb)))
                 (Range.from (horizontal (margin_ sb)))
  else mkCoordinate 1 1.

(** [toRealCoordinate(pos)]. *)
Definition toRealCoordinate (sb : t) (pos : Coordinate) : Coordinate :=
  if negb (cursorRestrictedToMargin sb) then pos
  else
    mkCoordinate
      (u32 (u32 (row pos + Range.from (vertical (margin_ sb))) - 1))
      (u32 (u32 (column pos + Range.from (horizontal (margin_ sb))) - 1)).

(** [clampToOrigin(coord)]. *)
Definition clampToOrigin (sb : t) (coord : Coordinate) : Coordinate :=
  mkCoordinate
    (clamp (row coord) 0 (Range.length (vertical (margin_ sb))))
    (clamp (column coord) 0 (Range.length (horizontal (margin_ sb)))).

(** [clampToScreen(coord)]. *)
Definition clampToScreen (sb : t) (coord : Coordinate) : Coordinate :=
  mkCoordinate
    (clamp (row coord) 1 (rows (size_ sb)))
    (clamp (column coord) 1 (columns (size_ sb))).

(** [clampCoordinate(coord)]. *)
Definition clampCoordinate (sb : t) (coord : Coordinate) : Coordinate :=
  if negb (cursorRestrictedToMargin sb) then clampToOrigin sb coord
  else clampToScreen sb coord.

(** [isCursorInsideMargins()]. *)
Definition isCursorInsideMargins (sb : t) : bool :=
  let insideVerticalMargin :=
    Range.contains (vertical (margin_ sb)) (row (Cursor.coord (cursor sb))) in
  let insideHorizontalMargin :=
    negb (isModeEnabled sb LeftRightMargin)
    || Range.contains (horizontal (margin_ sb))
         (column (Cursor.coord (cursor sb))) in
  insideVerticalMargin && insideHorizontalMargin.

(** Assignment to one field; the other fields are kept. *)
Definition set_margin (v : Margin) (sb : t) : t :=
  mk (type_ sb) (size_ sb) (maxHistoryLineCount_ sb) v (enabledModes_ sb)
     (cursor sb) (lines sb) (savedLines sb) (autoWrap sb) (wrapPending sb)
     (cursorRestrictedToMargin sb) (tabWidth sb) (tabs sb)
     (graphicsRendition sb) (savedStates sb) (currentLine sb)
     (currentColumn sb) (lastColumn sb) (lastCursor sb)
     (currentHyperlink sb) (hyperlinks sb).

Definition set_enabledModes (v : gset Mode) (sb : t) : t :=
  mk (type_ sb) (size_ sb) (maxHistoryLineCount_ sb) (margin_ sb) v
     (cursor sb) (lines sb) (savedLines sb) (autoWrap sb) (wrapPending sb)
     (cursorRestrictedToMargin sb) (tabWidth sb) (tabs sb)
     (graphicsRendition sb) (savedStates sb) (currentLine sb)
     (currentColumn sb) (lastColumn sb) (lastCursor sb)
     (currentHyperlink sb) (hyperlinks sb).

Definition set_cursor (v : Cursor.t) (sb : t) : t :=
  mk (type_ sb) (size_ sb) (maxHistoryLineCount_ sb) (margin_ sb)
     (enabledModes_ sb) v (lines sb) (savedLines sb) (autoWrap sb)
     (wrapPending sb) (cursorRestrictedToMargin sb) (tabWidth sb) (tabs sb)
     (graphicsRendition sb) (savedStates sb) (currentLine sb)
     (currentColumn sb) (lastColumn sb) (lastCursor sb)
     (currentHyperlink sb) (hyperlinks sb).

Definition set_lines (v : list Line.t) (sb : t) : t :=
  mk (type_ sb) (size_ sb) (maxHistoryLineCount_ sb) (margin_ sb)
     (enabledModes_ sb) (cursor sb) v (savedLines sb) (autoWrap sb)
     (wrapPending sb) (cursorRestrictedToMargin sb) (tabWidth sb) (tabs sb)
     (graphicsRendition sb) (savedStates sb) (currentLine sb)
     (currentColumn sb) (lastColumn sb) (lastCursor sb)
     (currentHyperlink sb) (hyperlinks sb).

Definition set_autoWrap (v : bool) (sb : t) : t :=
  mk (type_ sb) (size_ sb) (maxHistoryLineCount_ sb) (margin_ sb)
     (enabledModes_ sb) (cursor sb) (lines sb) (savedLines sb) v
     (wrapPending sb) (cursorRestrictedToMargin sb) (tabWidth sb) (tabs sb)
     (graphicsRendition sb) (savedStates sb) (currentLine sb)
     (currentColumn sb) (lastColumn sb) (lastCursor sb)
     (currentHyperlink sb) (hyperlinks sb).

Definition set_wrapPending (v : bool) (sb : t) : t :=
  mk (type_ sb) (size_ sb) (maxHistoryLineCount_ sb) (margin_ sb)
     (enabledModes_ sb) (cursor sb) (lines sb) (savedLines sb) (autoWrap sb)
     v (cursorRestrictedToMargin sb) (tabWidth sb) (tabs sb)
     (graphicsRendition sb) (savedStates sb) (currentLine sb)
     (currentColumn sb) (lastColumn sb) (lastCursor sb)
     (currentHyperlink sb) (hyperlinks sb).

Definition set_cursorRestrictedToMargin (v : bool) (sb : t) : t :=
  mk (type_ sb) (size_ sb) (maxHistoryLineCount_ sb) (margin_ sb)
     (enabledModes_ sb) (cursor sb) (lines sb) (savedLines sb) (autoWrap sb)
     (wrapPending sb) v (tabWidth sb) (tabs sb) (graphicsRendition sb)
     (savedStates sb) (currentLine sb) (currentColumn sb) (lastColumn sb)
     (lastCursor sb) (currentHyperlink sb) (hyperlinks sb).

Definition set_graphicsRendition (v : GraphicsAttributes) (sb : t) : t :=
  mk (type_ sb) (size_ sb) (maxHistoryLineCount_ sb) (margin_ sb)
     (enabledModes_ sb) (cursor sb) (lines sb) (savedLines sb) (autoWrap sb)
     (wrapPending sb) (cursorRestrictedToMargin sb) (tabWidth sb) (tabs sb)
     v (savedStates sb) (currentLine sb) (currentColumn sb) (lastColumn sb)
     (lastCursor sb) (currentHyperlink sb) (hyperlinks sb).

Definition set_savedStates (v : list SavedState.t) (sb : t) : t :=
  mk (type_ sb) (size_ sb) (maxHistoryLineCount_ sb) (margin_ sb)
     (enabledModes_ sb) (cursor sb) (lines sb) (savedLines sb) (autoWrap sb)
     (wrapPending sb) (cursorRestrictedToMargin sb) (tabWidth sb) (tabs sb)
     (graphicsRendition sb) v (currentLine sb) (currentColumn sb)
     (lastColumn sb) (lastCursor sb) (currentHyperlink sb) (hyperlinks sb).

Definition set_currentLine (v : nat) (sb : t) : t :=
  mk (type_ sb) (size_ sb) (maxHistoryLineCount_ sb) (margin_ sb)
     (enabledModes_ sb) (cursor sb) (lines sb) (savedLines sb) (autoWrap sb)
     (wrapPending sb) (cursorRestrictedToMargin sb) (tabWidth sb) (tabs sb)
     (graphicsRendition sb) (savedStates sb) v (currentColumn sb)
     (lastColumn sb) (lastCursor sb) (currentHyperlink sb) (hyperlinks sb).

Definition set_currentColumn (v : nat * nat) (sb : t) : t :=
  mk (type_ sb) (size_ sb) (maxHistoryLineCount_ sb) (margin_ sb)
     (enabledModes_ sb) (cursor sb) (lines sb) (savedLines sb) (autoWrap sb)
     (wrapPending sb) (cursorRestrictedToMargin sb) (tabWidth sb) (tabs sb)
     (graphicsRendition sb) (savedStates sb) (currentLine sb) v
     (lastColumn sb) (lastCursor sb) (currentHyperlink sb) (hyperlinks sb).

(** [columnIteratorAt(_n)] on the current line: [next(begin, _n - 1)], for a
    column [_n] from 1 to the size of the line. Outside of that [std::next]
    runs past the vector, which is undefined, and the position computed here
    stands for no iterator of the code. *)
Definition columnIteratorAt (sb : t) (n : Z) : nat * nat :=
  (currentLine sb, Z.to_nat (u32 (n - 1))).

(** [updateColumnIterator()]. *)
Definition updateColumnIterator (sb : t) : t :=
  set_currentColumn
    (columnIteratorAt sb (column (Cursor.coord (cursor sb)))) sb.

(** [updateCursorIterators()], for a cursor on the grid. For another cursor
    [std::next] runs past the deque, which is undefined, and the positions
    computed here stand for no iterators of the code. *)
Definition updateCursorIterators (sb : t) : t :=
  updateColumnIterator
    (set_currentLine (Z.to_nat (u32 (row (Cursor.coord (cursor sb)) - 1))) sb).

End ScreenBuffer.

(** ** Members whose bodies are in [Screen.cpp]

    [Screen.h] declares [setMode], [moveCursorTo], [saveState],
    [restoreState] and the erase commands; their bodies are in [Screen.cpp],
    which is not among the sources. They are modelled here from the
    specification, on top of the definitions of the header. *)

Module Impl.

Import ScreenBuffer.

(** Modelled from the spec: the body of [ScreenBuffer::setMode] is missing.
    Modes are stored as a set; AutoWrap governs the wrap of the write path,
    Origin remaps coordinates to the margins, VisibleCursor toggles
    [cursor.visible]. *)
Definition setMode (sb : t) (m : Mode) (enable : bool) : t :=
  let sb1 :=
    set_enabledModes
      (if enable then enabledModes_ sb ∪ {[m]} else enabledModes_ sb ∖ {[m]})
      sb in
  match m with
  | AutoWrap => set_autoWrap enable sb1
  | Origin => set_cursorRestrictedToMargin enable sb1
  | VisibleCursor =>
      set_cursor
        {| Cursor.coord := Cursor.coord (cursor sb1);
           Cursor.visible := enable |} sb1
  | _ => sb1
  end.

(** Modelled from the spec: the region a cursor motion is clamped to, which
    [ScreenBuffer::moveCursorTo] (body missing) uses: the margins when
    origin mode is enabled, else the screen. *)
Definition clampToActiveRegion (sb : t) (coord : Coordinate) : Coordinate :=
  if cursorRestrictedToMargin sb then
    mkCoordinate
      (clamp (row coord) (Range.from (vertical (margin_ sb)))
         (Range.to (vertical (margin_ sb))))
      (clamp (column coord) (Range.from (horizontal (margin_ sb)))
         (Range.to (horizontal (margin_ sb))))
  else clampToScreen sb coord.

(** Modelled from the spec: the body of [ScreenBuffer::moveCursorTo] is
    missing. The coordinates are logical when origin mode is enabled, else
    absolute: translate, then clamp to the active region. An explicit cursor
    motion clears [wrapPending]. The iterators follow the cursor through
    [updateCursorIterators] of the header. *)
Definition moveCursorTo (sb : t) (to : Coordinate) : t :=
  let sb1 := set_wrapPending false sb in
  let target := clampToActiveRegion sb1 (toRealCoordinate sb1 to) in
  updateCursorIterators (set_cursor (Cursor.assign (cursor sb1) target) sb1).

(** Modelled from the spec: the body of [ScreenBuffer::saveState] is
    missing. A save captures the logical cursor position, the graphics
    rendition, autowrap and origin mode. *)
Definition saveState (sb : t) : t :=
  set_savedStates
    ({| SavedState.cursorPosition := cursorPosition sb;
        SavedState.graphicsRendition := graphicsRendition sb;
        SavedState.autowrap := autoWrap sb;
        SavedState.originMode := cursorRestrictedToMargin sb |}
     :: savedStates sb)
    sb.

(** Modelled from the spec: the body of [ScreenBuffer::restoreState] is
    missing. Restore pops the last save and reapplies it; if the stack is
    empty, restore resets to home, default rendition, autowrap on, origin
    mode off. *)
Definition restoreState (sb : t) : t :=
  match savedStates sb with
  | [] =>
      let sb1 := setMode sb Origin false in
      let sb2 := setMode sb1 AutoWrap true in
      let sb3 := set_graphicsRendition GraphicsAttributes_default sb2 in
      moveCursorTo sb3 (mkCoordinate 1 1)
  | saved :: rest =>
      let sb1 := set_savedStates rest sb in
      let sb2 := setMode sb1 Origin (SavedState.originMode saved) in
      let sb3 := setMode sb2 AutoWrap (SavedState.autowrap saved) in
      let sb4 :=
        set_graphicsRendition (SavedState.graphicsRendition saved) sb3 in
      moveCursorTo sb4 (SavedState.cursorPosition saved)
  end.

(** Modelled from the spec: the erase commands that [Screen.h] declares
    (bodies missing): to the end, to the begin and all of the screen; to the
    end, to the begin and all of the line; a count of characters to the
    right. *)
Inductive EraseCommand : Type :=
  | ClearToEndOfScreen
  | ClearToBeginOfScreen
  | ClearScreen
  | ClearToEndOfLine
  | ClearToBeginOfLine
  | ClearLine
  | EraseCharacters (n : Z).

(** Modelled from the spec: the cells an erase command targets, for the
    cursor at [cur]; [r] and [c] are the 1-based row and column of the cell.
    A zero or negative count defaults to 1. *)
Definition isTarget (cmd : EraseCommand) (cur : Coordinate) (r c : Z) : bool :=
  match cmd with
  | ClearToEndOfScreen =>
      (row cur <? r) || ((r =? row cur) && (column cur <=? c))
  | ClearToBeginOfScreen =>
      (r <? row cur) || ((r =? row cur) && (c <=? column cur))
  | ClearScreen => true
  | ClearToEndOfLine => (r =? row cur) && (column cur <=? c)
  | ClearToBeginOfLine => (r =? row cur) && (c <=? column cur)
  | ClearLine => r =? row cur
  | EraseCharacters n =>
      (r =? row cur) && (column cur <=? c)
      && (c <? column cur + (if n <=? 0 then 1 else n))
  end.

(** Modelled from the spec: the attributes of an erased cell, which inherit
    the current background colour. *)
Definition erasedAttributes (sb : t) : GraphicsAttributes :=
  {| foregroundColor := foregroundColor GraphicsAttributes_default;
     backgroundColor := backgroundColor (graphicsRendition sb);
     underlineColor := underlineColor GraphicsAttributes_default;
     styles := styles GraphicsAttributes_default |}.

(** Modelled from the spec: what an erase does to one target cell; it is
    [Cell::reset(_attribs, _hyperlink)] of the header with the inherited
    background and no hyperlink. *)
Definition eraseCell (sb : t) (c : Cell.t) : Cell.t :=
  Cell.reset_with c (erasedAttributes sb) None.

(** Modelled from the spec: the bodies of the erase commands are missing.
    Each erase replaces its target cells with a reset cell and leaves the
    other cells as they are. *)
Definition erase (cmd : EraseCommand) (sb : t) : t :=
  set_lines
    (imap
       (fun i line =>
          {| Line.buffer :=
               imap
                 (fun j cell =>
                    if isTarget cmd (realCursorPosition sb)
                         (Z.of_nat i + 1) (Z.of_nat j + 1)
                    then eraseCell sb cell else cell)
                 (Line.buffer line);
             Line.marked := Line.marked line |})
       (lines sb))
    sb.

(** The cell at the 0-based position ([i], [j]) of the grid, if any. *)
Definition cellAt (sb : t) (i j : nat) : option Cell.t :=
  lines sb !! i ≫= fun line => Line.buffer line !! j.

End Impl.

(** ** Character styles *)

Module CharacterStyleMask.

(** [enum Mask : uint16_t]. *)
Inductive Mask : Type :=
  | Bold
  | Faint
  | Italic
  | Underline
  | Blinking
  | Inverse
  | Hidden
  | CrossedOut
  | DoublyUnderlined
  | CurlyUnderlined
  | DottedUnderline
  | DashedUnderline
  | Framed
  | Encircled.

(** The value of each enumerator. *)
Definition value (m : Mask) : Z :=
  match m with
  | Bold => Z.shiftl 1 0
  | Faint => Z.shiftl 1 1
  | Italic => Z.shiftl 1 2
  | Underline => Z.shiftl 1 3
  | Blinking => Z.shiftl 1 4
  | Inverse => Z.shiftl 1 5
  | Hidden => Z.shiftl 1 6
  | CrossedOut => Z.shiftl 1 7
  | DoublyUnderlined => Z.shiftl 1 8
  | CurlyUnderlined => Z.shiftl 1 9
  | DottedUnderline => Z.shiftl 1 10
  | DashedUnderline => Z.shiftl 1 11
  | Framed => Z.shiftl 1 12
  | Encircled => Z.shiftl 1 13
  end.

(** A [CharacterStyleMask] is its [unsigned mask_], as in the [styles] field
    of the graphics attributes. [operator==] compares the masks. *)
Definition eqb (a b : Z) : bool := a =? b.

(** [operator|=]: [a = a | b], on the [unsigned] values of both. *)
Definition or_assign (a b : Z) : Z := Z.lor a b.

(** [operator&=]: [a = a & b]. *)
Definition and_assign (a b : Z) : Z := Z.land a b.

(** [operator!]. *)
Definition not (a : Z) : bool := a =? 0.

(** The table of the [fmt] formatter of [CharacterStyleMask]. *)
Definition mappings : list (Mask * string) :=
  [ (Bold, "bold");
    (Faint, "faint");
    (Italic, "italic");
    (Underline, "underline");
    (Blinking, "blinking");
    (Inverse, "inverse");
    (Hidden, "hidden");
    (CrossedOut, "crossedOut");
    (DoublyUnderlined, "doublyUnderlined");
    (CurlyUnderlined, "curlyUnderlined") ].

(** One round of the loop of the formatter, on the counter [i] and the
    text written to the stream so far. The loop never assigns to [i]. *)
Definition format_step (mask : Z) (state : Z * string)
    (mapping : Mask * string) : Z * string :=
  let i := state.1 in
  let os := state.2 in
  if negb (Z.land mask (value mapping.1) =? 0) then
    let os := if negb (i =? 0) then String.append os ", " else os in
    (i, String.append os mapping.2)
  else (i, os).

(** [formatter<CharacterStyleMask>::format]: the text of the stream after
    the loop over the table, with [i] and the stream as declared. *)
Definition format (mask : Z) : string :=
  (fold_left (format_step mask) mappings (0, EmptyString)).2.

End CharacterStyleMask.

(** [operator!=] on [GraphicsAttributes]. *)
Definition GraphicsAttributes_neqb (a b : GraphicsAttributes) : bool :=
  negb (GraphicsAttributes_eqb a b).

(** ** The screen *)

Module Screen.

(** [contains(_coord)], which reads the [size_] of the screen. *)
Definition contains (size_ : WindowSize) (coord : Coordinate) : bool :=
  (1 <=? row coord) && (row coord <=? rows size_)
  && (1 <=? column coord) && (column coord <=? columns size_).

(** What [buffer_] points to: one of the two buffers of the screen. *)
Inductive BufferPointer : Type := ToPrimary | ToAlternate.

(** The data members of [Screen], in the order of their declaration; the
    callbacks, the logger, the output handler and the parser are left
    out. *)
Record t : Type := mk {
  logRaw_ : bool;
  logTrace_ : bool;
  instructionCounter_ : Z;
  primaryBuffer_ : ScreenBuffer.t;
  alternateBuffer_ : ScreenBuffer.t;
  buffer_ : BufferPointer;
  size_ : WindowSize;
  maxHistoryLineCount_ : option Z;
  windowTitle_ : string;
  savedWindowTitles_ : list string;
  scrollOffset_ : Z
}.

(** [*buffer_]. *)
Definition buffer (s : t) : ScreenBuffer.t :=
  match buffer_ s with
  | ToPrimary => primaryBuffer_ s
  | ToAlternate => alternateBuffer_ s
  end.

(** Assignment through [buffer_]. *)
Definition set_buffer (sb : ScreenBuffer.t) (s : t) : t :=
  match buffer_ s with
  | ToPrimary =>
      mk (logRaw_ s) (logTrace_ s) (instructionCounter_ s) sb
         (alternateBuffer_ s) (buffer_ s) (size_ s) (maxHistoryLineCount_ s)
         (windowTitle_ s) (savedWindowTitles_ s) (scrollOffset_ s)
  | ToAlternate =>
      mk (logRaw_ s) (logTrace_ s) (instructionCounter_ s) (primaryBuffer_ s)
         sb (buffer_ s) (size_ s) (maxHistoryLineCount_ s)
         (windowTitle_ s) (savedWindowTitles_ s) (scrollOffset_ s)
  end.

(** The cell a column iterator designates in the grid of a buffer, if the
    iterator is inside the grid. *)
Definition deref (sb : ScreenBuffer.t) (it : nat * nat) : option Cell.t :=
  ScreenBuffer.lines sb !! it.1 ≫= fun line => Line.buffer line !! it.2.

(** Assignment through a column iterator that is inside the grid. *)
Definition assign (sb : ScreenBuffer.t) (it : nat * nat) (value : Cell.t)
    : ScreenBuffer.t :=
  ScreenBuffer.set_lines
    (alter
       (fun line =>
          Line.mk (<[it.2 := value]> (Line.buffer line)) (Line.marked line))
       it.1 (ScreenBuffer.lines sb))
    sb.

(** [currentCell()]: [*buffer_->currentColumn]. *)
Definition currentCell (s : t) : option Cell.t :=
  deref (buffer s) (ScreenBuffer.currentColumn (buffer s)).

(** [currentCell(value)]: [*buffer_->currentColumn = value]; the screen
    afterwards. *)
Definition setCurrentCell (s : t) (value : Cell.t) : t :=
  set_buffer
    (assign (buffer s) (ScreenBuffer.currentColumn (buffer s)) value) s.

(** [isPrimaryScreen()] and [isAlternateScreen()]. *)
Definition isPrimaryScreen (s : t) : bool :=
  match buffer_ s with ToPrimary => true | ToAlternate => false end.

Definition isAlternateScreen (s : t) : bool :=
  match buffer_ s with ToPrimary => false | ToAlternate => true end.

End Screen.

(** ** Invariants *)

(** A cell of the C++ type that holds at most [MaxCodepoints] code
    points. *)
Definition Cell_bounded (c : Cell.t) : Prop :=
  Cell.typed c /\ Cell.codepointCount_ c <= Cell.MaxCodepoints.

(** A grid of [size_.rows] lines of [size_.columns] cells each. *)
Definition grid_shaped (sb : ScreenBuffer.t) : Prop :=
  List.length (ScreenBuffer.lines sb)
    = Z.to_nat (rows (ScreenBuffer.size_ sb))
  /\ Forall
       (fun line =>
          Line.size line = Z.to_nat (columns (ScreenBuffer.size_ sb)))
       (ScreenBuffer.lines sb).

(** ** Sample data *)

(** A width table for the examples: no column for the variation selector
    U+FE0F and the combining acute accent U+0301, two columns from U+1F600
    on, one column otherwise. *)
Definition sample_width (cp : Z) : Z :=
  if (cp =? 0xFE0F) || (cp =? 0x0301) then 0
  else if 0x1F600 <=? cp then 2 else 1.

(** The cell that holds the letter A, then the accent on top of it. *)
Definition sample_cell : Cell.t :=
  (Cell.appendCharacter sample_width
     (unchecked (Cell.setCharacter sample_width Cell.default 0x41))
     0x0301).2.

(** The same text as [sample_cell] with another width and a hyperlink. *)
Definition sample_cell_linked : Cell.t :=
  {| Cell.codepoints_ := Cell.codepoints_ sample_cell;
     Cell.attributes_ := Cell.attributes_ sample_cell;
     Cell.width_ := 2;
     Cell.codepointCount_ := Cell.codepointCount_ sample_cell;
     Cell.hyperlink_ := Some (mkHyperlinkInfo "1" "https://x") |}.

(** A screen of 10 rows and 20 columns. *)
Definition sample_size : WindowSize := {| columns := 20; rows := 10 |}.

Definition sample_buffer : ScreenBuffer.t :=
  ScreenBuffer.make ScreenBuffer.Main sample_size None.

(** The sample screen with the vertical margins at rows 3 to 7 and origin
    mode enabled. *)
Definition sample_origin_buffer : ScreenBuffer.t :=
  ScreenBuffer.set_cursorRestrictedToMargin true
    (ScreenBuffer.set_margin
       {| vertical := Range.mk 3 7; horizontal := Range.mk 1 20 |}
       sample_buffer).

(** The sample screen with a blue background selected, the cursor at row 2,
    column 3, and a linked cell under the cursor. *)
Definition sample_painted_buffer : ScreenBuffer.t :=
  ScreenBuffer.set_lines
    (<[1%nat :=
         Line.mk (<[2%nat := sample_cell_linked]>
                    (replicate 20 Cell.default)) false]>
       (ScreenBuffer.lines sample_buffer))
    (ScreenBuffer.set_cursor
       {| Cursor.coord := mkCoordinate 2 3; Cursor.visible := true |}
       (ScreenBuffer.set_graphicsRendition
          (mkGraphicsAttributes DefaultColor (IndexedColor 4) DefaultColor 1)
          sample_buffer)).

(** A screen on its alternate buffer, which is the painted sample with the
    iterators at the cursor; the primary buffer is the blank sample. *)
Definition sample_screen : Screen.t :=
  {| Screen.logRaw_ := false;
     Screen.logTrace_ := false;
     Screen.instructionCounter_ := 0;
     Screen.primaryBuffer_ := sample_buffer;
     Screen.alternateBuffer_ := ScreenBuffer.updateCursorIterators sample_painted_buffer;
     Screen.buffer_ := Screen.ToAlternate;
     Screen.size_ := sample_size;
     Screen.maxHistoryLineCount_ := None;
     Screen.windowTitle_ := EmptyString;
     Screen.savedWindowTitles_ := [];
     Screen.scrollOffset_ := 0 |}.

(** The range conditions on concrete cells are settled by evaluation. *)
Ltac by_evaluation :=
  unfold Cell.typed, is_u8, is_u32; vm_compute; intuition congruence.

(** * Properties *)

(** ** Machine integers and clamping *)

Lemma u8_small (x : Z) : is_u8 x -> u8 x = x.
Proof. intros H. unfold u8. apply Z.mod_small. exact H. Qed.

Lemma u32_small (x : Z) : is_u32 x -> u32 x = x.
Proof. intros H. unfold u32. apply Z.mod_small. exact H. Qed.

Lemma clamp_bounds (v lo hi : Z) : lo <= hi -> lo <= clamp v lo hi <= hi.
Proof.
  intros H. unfold clamp.
  destruct (Z.ltb_spec v lo); [lia |].
  destruct (Z.ltb_spec hi v); lia.
Qed.

Lemma clamp_inside (v lo hi : Z) : lo <= v <= hi -> clamp v lo hi = v.
Proof.
  intros H. unfold clamp.
  destruct (Z.ltb_spec v lo); [lia |].
  destruct (Z.ltb_spec hi v); [lia | reflexivity].
Qed.

(** ** Cells *)

Lemma GraphicsAttributes_eqb_eq (a b : GraphicsAttributes) :
  GraphicsAttributes_eqb a b = true <-> a = b.
Proof.
  unfold GraphicsAttributes_eqb. split.
  - intros H. repeat (apply andb_prop in H; destruct H as [H ?]).
    destruct a, b; simpl in *.
    repeat match goal with
           | E : bool_decide _ = true |- _ => apply bool_decide_eq_true in E
           | E : (_ =? _) = true |- _ => apply Z.eqb_eq in E
           end.
    congruence.
  - intros ->. rewrite !bool_decide_eq_true_2 by reflexivity.
    rewrite Z.eqb_refl. reflexivity.
Qed.

Lemma codepoints_eqb_from_spec (a b : Cell.t) (n i : nat) :
  Cell.codepoints_eqb_from a b i n = true <->
  forall k : nat, (i <= k < i + n)%nat -> Cell.codepoint a k = Cell.codepoint b k.
Proof.
  revert i. induction n as [| n IH]; intros i; simpl.
  - split; [intros _ k Hk; lia | reflexivity].
  - destruct (Z.eqb_spec (Cell.codepoint a i) (Cell.codepoint b i)) as [E | E];
      simpl.
    + rewrite IH. split.
      * intros H k Hk. destruct (decide (k = i)) as [-> | Hne]; [exact E |].
        apply H. lia.
      * intros H k Hk. apply H. lia.
    + split; [discriminate |].
      intros H. exfalso. apply E. apply H. lia.
Qed.

Section CellFacts.

Variable unicode_width : Z -> Z.

Lemma take_succ_insert (l : list Z) (n : nat) (x : Z) :
  (n < List.length l)%nat -> take (S n) (<[n := x]> l) = take n l ++ [x].
Proof.
  intros H.
  rewrite (take_S_r _ n x) by (apply list_lookup_insert_eq; exact H).
  rewrite take_insert_ge by lia. reflexivity.
Qed.

(** What [appendCharacter] stores, whichever way the widths compare. *)
Lemma appendCharacter_stores (c : Cell.t) (cp : Z) :
  Cell.codepointCount_ c < Cell.MaxCodepoints ->
  Cell.codepoints_ (Cell.appendCharacter unicode_width c cp).2
    = <[Z.to_nat (Cell.codepointCount_ c) := cp]> (Cell.codepoints_ c)
  /\ Cell.codepointCount_ (Cell.appendCharacter unicode_width c cp).2
    = u8 (Cell.codepointCount_ c + 1).
Proof.
  intros H. unfold Cell.appendCharacter.
  destruct (Z.ltb_spec (Cell.codepointCount_ c) Cell.MaxCodepoints); [| lia].
  destruct (Cell.appendWidth unicode_width cp >? Cell.width_ c); simpl; auto.
Qed.

Lemma appendCharacter_full (c : Cell.t) (cp : Z) :
  Cell.MaxCodepoints <= Cell.codepointCount_ c ->
  Cell.appendCharacter unicode_width c cp = (1, c).
Proof.
  intros H. unfold Cell.appendCharacter.
  destruct (Z.ltb_spec (Cell.codepointCount_ c) Cell.MaxCodepoints);
    [lia | reflexivity].
Qed.

(** Below the limit the view of the stored code points grows by the new
    one. *)
Lemma appendCharacter_appends (c : Cell.t) (cp : Z) :
  Cell.typed c ->
  Cell.codepointCount_ c < 9 ->
  Cell.codepoints (Cell.appendCharacter unicode_width c cp).2
    = Cell.codepoints c ++ [cp]
  /\ Cell.codepointCount_ (Cell.appendCharacter unicode_width c cp).2
    = Cell.codepointCount_ c + 1.
Proof.
  intros (Hlen & Hw & Hn) Hc. unfold is_u8 in *.
  destruct (appendCharacter_stores c cp) as [Hcps Hcnt]; [exact Hc |].
  assert (Hu : u8 (Cell.codepointCount_ c + 1) = Cell.codepointCount_ c + 1)
    by (apply u8_small; unfold is_u8; lia).
  split; [| congruence].
  unfold Cell.codepoints. rewrite Hcps, Hcnt, Hu.
  replace (Z.to_nat (Cell.codepointCount_ c + 1))
    with (S (Z.to_nat (Cell.codepointCount_ c))) by lia.
  apply take_succ_insert. rewrite Hlen. unfold Cell.MaxCodepoints. lia.
Qed.

(** Below the limit the cell grows to the width [appendCharacter] computes
    for the code point, and the growth is returned. *)
Lemma appendCharacter_grows (c : Cell.t) (cp : Z) :
  Cell.typed c ->
  is_u8 (Cell.appendWidth unicode_width cp) ->
  Cell.codepointCount_ c < 9 ->
  Cell.width_ (Cell.appendCharacter unicode_width c cp).2
    = Z.max (Cell.width_ c) (Cell.appendWidth unicode_width cp)
  /\ (Cell.appendCharacter unicode_width c cp).1
    = Z.max (Cell.width_ c) (Cell.appendWidth unicode_width cp)
      - Cell.width_ c.
Proof.
  intros (Hlen & Hw & Hn) Hw8 Hc. unfold Cell.appendCharacter.
  destruct (Z.ltb_spec (Cell.codepointCount_ c) Cell.MaxCodepoints) as [_ | F];
    [| unfold Cell.MaxCodepoints in F; lia].
  set (w := Cell.appendWidth unicode_width cp) in *.
  unfold is_u8 in *.
  destruct (Z.gtb_spec w (Cell.width_ c)) as [G | G]; simpl.
  - rewrite u8_small by exact Hw8.
    rewrite u32_small by (unfold is_u32; lia). lia.
  - lia.
Qed.

Lemma appendCharacter_typed (c : Cell.t) (cp : Z) :
  Cell.typed c -> Cell.typed (Cell.appendCharacter unicode_width c cp).2.
Proof.
  intros (Hlen & Hw & Hn). unfold Cell.appendCharacter.
  assert (Hm8 : forall x, is_u8 (u8 x))
    by (intros x; unfold is_u8, u8; apply Z.mod_pos_bound; lia).
  destruct (Cell.codepointCount_ c <? Cell.MaxCodepoints);
    [| repeat split; assumption || apply Hw || apply Hn].
  destruct (Cell.appendWidth unicode_width cp >? Cell.width_ c);
    unfold Cell.typed; simpl; rewrite length_insert; auto.
Qed.

(** The width that [setCharacter] stores for a code point other than NUL. *)
Lemma setCharacter_width (c : Cell.t) (cp : Z) :
  cp <> 0 ->
  Cell.width_ (unchecked (Cell.setCharacter unicode_width c cp))
    = u8 (unicode_width cp).
Proof.
  intros H. unfold Cell.setCharacter.
  destruct (Z.eqb_spec cp 0); [contradiction |]. simpl.
  destruct (u8 (unicode_width cp) =? 0); reflexivity.
Qed.

(** C3: when the cell holds fewer than 9 code points, [appendCharacter]
    appends the code point to the stored ones and increments the count; when
    it holds 9 the code point is dropped and the cell, with its code points,
    count and width, is unchanged; so a count of at most 9 stays at most
    9. *)
Theorem appendCharacter_bounded (c : Cell.t) (cp : Z) :
  Cell.typed c ->
  (Cell.codepointCount c < 9 ->
     Cell.codepoints (Cell.appendCharacter unicode_width c cp).2
       = Cell.codepoints c ++ [cp]
     /\ Cell.codepointCount (Cell.appendCharacter unicode_width c cp).2
       = Cell.codepointCount c + 1)
  /\ (Cell.codepointCount c = 9 ->
     (Cell.appendCharacter unicode_width c cp).2 = c)
  /\ (Cell.codepointCount c <= 9 ->
     Cell.codepointCount (Cell.appendCharacter unicode_width c cp).2 <= 9).
Proof.
  intros Ht. unfold Cell.codepointCount.
  split; [apply appendCharacter_appends; exact Ht |]. split.
  - intros Hc. rewrite appendCharacter_full; [reflexivity |].
    unfold Cell.MaxCodepoints. lia.
  - intros Hc. destruct (Z.eq_dec (Cell.codepointCount_ c) 9) as [E | E].
    + rewrite appendCharacter_full; [simpl; lia |].
      unfold Cell.MaxCodepoints. lia.
    + destruct (appendCharacter_appends c cp Ht) as [_ ->]; lia.
Qed.

(** The width of a written code point on each path: [appendCharacter], which
    extends the cluster of a cell, takes U+FE0F as two columns wide and every
    other code point as [unicode_width] of it: the cell grows to that width
    when it is narrower, and the growth is returned. [setCharacter], which
    stores the base of a cluster, has no case for U+FE0F: the byte it stores
    for a code point other than NUL is [unicode_width] of it, which the
    assertion then tests. *)
Theorem written_scalar_width (c : Cell.t) (cp : Z) :
  Cell.typed c ->
  is_u8 (unicode_width cp) ->
  (Cell.codepointCount c < 9 ->
     Cell.width (Cell.appendCharacter unicode_width c cp).2
       = Z.max (Cell.width c) (if cp =? 0xFE0F then 2 else unicode_width cp)
     /\ (Cell.appendCharacter unicode_width c cp).1
       = Z.max (Cell.width c) (if cp =? 0xFE0F then 2 else unicode_width cp)
         - Cell.width c)
  /\ (cp <> 0 ->
     Cell.width (unchecked (Cell.setCharacter unicode_width c cp))
       = unicode_width cp).
Proof.
  intros Ht Hu. unfold Cell.codepointCount, Cell.width. split.
  - apply (appendCharacter_grows c cp Ht). unfold Cell.appendWidth.
    destruct (cp =? 0xFE0F); [unfold is_u8; lia | exact Hu].
  - intros Hcp. rewrite setCharacter_width by exact Hcp.
    apply u8_small. exact Hu.
Qed.

(** C9: [setCharacter] asserts that the stored width is not zero. For NUL,
    which empties the cell, and for a code point whose width is at least 1
    the assertion holds; for any other code point of width 0 it fires, while
    [appendCharacter] takes such a code point into the cluster and leaves
    the width as it is. *)
Theorem setCharacter_assertion (c : Cell.t) (cp : Z) :
  Cell.typed c ->
  is_u8 (unicode_width cp) ->
  (cp = 0 \/ 1 <= unicode_width cp ->
     exists c', Cell.setCharacter unicode_width c cp = AssertHolds c'
                /\ Cell.width c' <> 0
                /\ (cp = 0 -> Cell.empty c' = true))
  /\ (cp <> 0 -> unicode_width cp = 0 ->
     (exists c', Cell.setCharacter unicode_width c cp = AssertFires c')
     /\ (cp <> 0xFE0F -> Cell.codepointCount c < 9 ->
         Cell.codepoints (Cell.appendCharacter unicode_width c cp).2
           = Cell.codepoints c ++ [cp]
         /\ Cell.width (Cell.appendCharacter unicode_width c cp).2
           = Cell.width c)).
Proof.
  intros Ht Hu. split.
  - intros Hpre. unfold Cell.setCharacter.
    destruct (Z.eqb_spec cp 0) as [E | E].
    + eexists. split; [reflexivity |]. simpl. split; [lia | reflexivity].
    + destruct Hpre as [F | Hpos]; [contradiction |]. simpl.
      rewrite (u8_small _ Hu).
      destruct (Z.eqb_spec (unicode_width cp) 0) as [Z0 | Z0]; [lia |].
      eexists. split; [reflexivity |]. simpl.
      split; [exact Z0 | contradiction].
  - intros Hcp Hz. split.
    + unfold Cell.setCharacter.
      destruct (Z.eqb_spec cp 0); [contradiction |]. simpl.
      rewrite (u8_small _ Hu), Hz. simpl. eexists. reflexivity.
    + intros Hvs Hc. unfold Cell.codepointCount, Cell.width in *.
      destruct (appendCharacter_appends c cp Ht Hc) as [-> _].
      split; [reflexivity |].
      assert (Hw0 : Cell.appendWidth unicode_width cp = 0).
      { unfold Cell.appendWidth.
        destruct (Z.eqb_spec cp 0xFE0F); [contradiction | exact Hz]. }
      destruct (appendCharacter_grows c cp Ht) as [-> _];
        [rewrite Hw0; unfold is_u8; lia | exact Hc |].
      rewrite Hw0. destruct Ht as (_ & Hw & _). unfold is_u8 in Hw. lia.
Qed.

End CellFacts.

(** C10: cell equality holds exactly when the two cells have the same count,
    the same attributes field by field, and the same stored code points
    below the count; the width and the hyperlink of neither cell take part
    in it. *)
Theorem Cell_eqb_compares (a b : Cell.t) :
  (Cell.eqb a b = true <->
     Cell.codepointCount a = Cell.codepointCount b
     /\ (foregroundColor (Cell.attributes a) = foregroundColor (Cell.attributes b)
         /\ backgroundColor (Cell.attributes a) = backgroundColor (Cell.attributes b)
         /\ underlineColor (Cell.attributes a) = underlineColor (Cell.attributes b)
         /\ styles (Cell.attributes a) = styles (Cell.attributes b))
     /\ forall i : nat, (i < Z.to_nat (Cell.codepointCount a))%nat ->
          Cell.codepoint a i = Cell.codepoint b i)
  /\ forall (wa wb : Z) (ha hb : HyperlinkRef),
       Cell.eqb
         (Cell.mk (Cell.codepoints_ a) (Cell.attributes_ a) wa
            (Cell.codepointCount_ a) ha)
         (Cell.mk (Cell.codepoints_ b) (Cell.attributes_ b) wb
            (Cell.codepointCount_ b) hb)
       = Cell.eqb a b.
Proof.
  assert (Hspec : forall x y : Cell.t,
    Cell.eqb x y = true <->
      Cell.codepointCount x = Cell.codepointCount y
      /\ Cell.attributes x = Cell.attributes y
      /\ forall i : nat, (i < Z.to_nat (Cell.codepointCount x))%nat ->
           Cell.codepoint x i = Cell.codepoint y i).
  { intros x y. unfold Cell.eqb.
    destruct (Z.eqb_spec (Cell.codepointCount x) (Cell.codepointCount y))
      as [En | En]; simpl; [| split; [discriminate | tauto]].
    destruct (GraphicsAttributes_eqb (Cell.attributes x) (Cell.attributes y))
      eqn:Ea; simpl.
    - apply GraphicsAttributes_eqb_eq in Ea.
      rewrite codepoints_eqb_from_spec. split.
      + intros H. repeat split; try assumption. intros i Hi. apply H. lia.
      + intros (_ & _ & H) k Hk. apply H. lia.
    - split; [discriminate |]. intros (_ & F & _).
      apply GraphicsAttributes_eqb_eq in F. congruence. }
  split.
  - rewrite Hspec. split.
    + intros (Hn & Ha & Hc). rewrite Ha. tauto.
    + intros (Hn & (Hf & Hb & Hu & Hs) & Hc). repeat split; try assumption.
      destruct (Cell.attributes a), (Cell.attributes b); simpl in *.
      congruence.
  - intros wa wb ha hb.
    apply eq_true_iff_eq. rewrite !Hspec. reflexivity.
Qed.

(** ** The screen buffer: construction and reset *)

Lemma Line_make_size (numCols : Z) (cell : Cell.t) :
  Line.size (Line.make numCols cell) = Z.to_nat numCols.
Proof. unfold Line.size, Line.make. simpl. apply length_replicate. Qed.

Lemma make_grid (type : ScreenBuffer.BufferType) (size : WindowSize)
    (maxHistory : option Z) :
  List.length (ScreenBuffer.lines (ScreenBuffer.make type size maxHistory))
    = Z.to_nat (rows size)
  /\ Forall (fun line => Line.size line = Z.to_nat (columns size))
       (ScreenBuffer.lines (ScreenBuffer.make type size maxHistory)).
Proof.
  simpl. split.
  - apply length_replicate.
  - apply Forall_replicate. apply Line_make_size.
Qed.

(** C6: after construction, and after [reset], the grid has [size.rows]
    lines and every line holds [size.columns] cells. *)
Theorem grid_dimensions (type : ScreenBuffer.BufferType) (size : WindowSize)
    (maxHistory : option Z) (sb : ScreenBuffer.t) :
  (ScreenBuffer.size_ (ScreenBuffer.make type size maxHistory) = size
   /\ List.length (ScreenBuffer.lines (ScreenBuffer.make type size maxHistory))
      = Z.to_nat (rows size)
   /\ Forall (fun line => Line.size line = Z.to_nat (columns size))
        (ScreenBuffer.lines (ScreenBuffer.make type size maxHistory)))
  /\ (ScreenBuffer.size_ (ScreenBuffer.reset sb) = ScreenBuffer.size_ sb
      /\ List.length (ScreenBuffer.lines (ScreenBuffer.reset sb))
         = Z.to_nat (rows (ScreenBuffer.size_ sb))
      /\ Forall
           (fun line =>
              Line.size line = Z.to_nat (columns (ScreenBuffer.size_ sb)))
           (ScreenBuffer.lines (ScreenBuffer.reset sb))).
Proof.
  split; (split; [reflexivity |]); [| unfold ScreenBuffer.reset];
    apply make_grid.
Qed.

Lemma reset_idempotent (sb : ScreenBuffer.t) :
  ScreenBuffer.reset (ScreenBuffer.reset sb) = ScreenBuffer.reset sb.
Proof. reflexivity. Qed.

Lemma reset_depends_on_arguments (sb1 sb2 : ScreenBuffer.t) :
  ScreenBuffer.type_ sb1 = ScreenBuffer.type_ sb2 ->
  ScreenBuffer.size_ sb1 = ScreenBuffer.size_ sb2 ->
  ScreenBuffer.maxHistoryLineCount_ sb1 = ScreenBuffer.maxHistoryLineCount_ sb2 ->
  ScreenBuffer.reset sb1 = ScreenBuffer.reset sb2.
Proof. intros Ht Hs Hm. unfold ScreenBuffer.reset. congruence. Qed.

(** C8: [reset] keeps the type, the size and the history limit of the
    buffer, and every other field has the value the constructor gives it:
    the cursor at (1, 1) and visible, the margins over the whole screen, no
    enabled mode, no scrollback line, no saved state, the default graphics
    rendition, no current hyperlink, [autoWrap] and [wrapPending] false; so
    have the fields the claim does not name. *)
Theorem reset_frame (sb : ScreenBuffer.t) :
  (ScreenBuffer.type_ (ScreenBuffer.reset sb) = ScreenBuffer.type_ sb
   /\ ScreenBuffer.size_ (ScreenBuffer.reset sb) = ScreenBuffer.size_ sb
   /\ ScreenBuffer.maxHistoryLineCount_ (ScreenBuffer.reset sb)
      = ScreenBuffer.maxHistoryLineCount_ sb)
  /\ (ScreenBuffer.cursor (ScreenBuffer.reset sb)
      = Cursor.mk (mkCoordinate 1 1) true
      /\ ScreenBuffer.margin_ (ScreenBuffer.reset sb)
         = mkMargin (Range.mk 1 (rows (ScreenBuffer.size_ sb)))
                    (Range.mk 1 (columns (ScreenBuffer.size_ sb)))
      /\ ScreenBuffer.enabledModes_ (ScreenBuffer.reset sb) = ∅
      /\ ScreenBuffer.savedLines (ScreenBuffer.reset sb) = []
      /\ ScreenBuffer.savedStates (ScreenBuffer.reset sb) = []
      /\ ScreenBuffer.graphicsRendition (ScreenBuffer.reset sb)
         = GraphicsAttributes_default
      /\ ScreenBuffer.currentHyperlink (ScreenBuffer.reset sb) = None
      /\ ScreenBuffer.autoWrap (ScreenBuffer.reset sb) = false
      /\ ScreenBuffer.wrapPending (ScreenBuffer.reset sb) = false)
  /\ (ScreenBuffer.cursorRestrictedToMargin (ScreenBuffer.reset sb) = false
      /\ ScreenBuffer.tabWidth (ScreenBuffer.reset sb) = 8
      /\ ScreenBuffer.tabs (ScreenBuffer.reset sb) = []
      /\ ScreenBuffer.lastCursor (ScreenBuffer.reset sb)
         = Cursor.mk (mkCoordinate 1 1) true
      /\ ScreenBuffer.hyperlinks (ScreenBuffer.reset sb) = ∅
      /\ ScreenBuffer.lines (ScreenBuffer.reset sb)
         = replicate (Z.to_nat (rows (ScreenBuffer.size_ sb)))
             (Line.mk
                (replicate (Z.to_nat (columns (ScreenBuffer.size_ sb)))
                   Cell.default)
                false)
      /\ ScreenBuffer.currentLine (ScreenBuffer.reset sb) = 0%nat
      /\ ScreenBuffer.currentColumn (ScreenBuffer.reset sb) = (0%nat, 0%nat)
      /\ ScreenBuffer.lastColumn (ScreenBuffer.reset sb) = (0%nat, 0%nat)).
Proof. repeat split. Qed.

(** ** Origin mode: translation and clamping *)

Lemma u32_round_trip (x from : Z) :
  is_u32 x -> u32 (u32 (u32 (u32 (x - from) + 1) + from) - 1) = x.
Proof.
  intros H. unfold u32.
  rewrite (Zplus_mod_idemp_l (x - from) 1).
  rewrite (Zplus_mod_idemp_l (x - from + 1) from).
  rewrite (Zminus_mod_idemp_l (x - from + 1 + from) 1).
  replace (x - from + 1 + from - 1) with x by ring.
  apply Z.mod_small. exact H.
Qed.

Lemma u32_round_trip_back (x from : Z) :
  is_u32 x -> u32 (u32 (u32 (u32 (x + from) - 1) - from) + 1) = x.
Proof.
  intros H. unfold u32.
  rewrite (Zminus_mod_idemp_l (x + from) 1).
  rewrite (Zminus_mod_idemp_l (x + from - 1) from).
  rewrite (Zplus_mod_idemp_l (x + from - 1 - from) 1).
  replace (x + from - 1 - from + 1) with x by ring.
  apply Z.mod_small. exact H.
Qed.

(** C7: the real coordinate of the logical cursor position is the real
    cursor position, for a cursor whose row and column are values of
    [cursor_pos_t]; with origin mode disabled [cursorPosition] is the real
    position and [toRealCoordinate] is the identity. *)
Theorem cursor_translation (sb : ScreenBuffer.t) :
  is_u32 (row (Cursor.coord (ScreenBuffer.cursor sb))) ->
  is_u32 (column (Cursor.coord (ScreenBuffer.cursor sb))) ->
  ScreenBuffer.toRealCoordinate sb (ScreenBuffer.cursorPosition sb)
    = ScreenBuffer.realCursorPosition sb
  /\ (ScreenBuffer.cursorRestrictedToMargin sb = false ->
      ScreenBuffer.cursorPosition sb = ScreenBuffer.realCursorPosition sb
      /\ forall pos : Coordinate, ScreenBuffer.toRealCoordinate sb pos = pos).
Proof.
  intros Hr Hc.
  unfold ScreenBuffer.toRealCoordinate, ScreenBuffer.cursorPosition,
    ScreenBuffer.realCursorPosition.
  split.
  - destruct (ScreenBuffer.cursorRestrictedToMargin sb); simpl;
      [| reflexivity].
    rewrite !u32_round_trip by assumption. reflexivity.
  - intros ->. simpl. split; [reflexivity | intros pos; reflexivity].
Qed.

(** X11: the other direction: the logical position of a cursor placed at the
    real coordinate of a position [pos] of 32-bit values is [pos], in either
    mode and whatever the margins are. *)
Lemma cursorPosition_of_real (sb : ScreenBuffer.t) (pos : Coordinate) :
  is_u32 (row pos) -> is_u32 (column pos) ->
  ScreenBuffer.cursorPosition
    (ScreenBuffer.set_cursor
       (Cursor.assign (ScreenBuffer.cursor sb)
          (ScreenBuffer.toRealCoordinate sb pos)) sb)
  = pos.
Proof.
  intros Hr Hc.
  unfold ScreenBuffer.cursorPosition, ScreenBuffer.toRealCoordinate,
    ScreenBuffer.realCursorPosition.
  destruct pos as [r c]. simpl in *.
  destruct (ScreenBuffer.cursorRestrictedToMargin sb); simpl;
    [| reflexivity].
  rewrite !u32_round_trip_back by assumption. reflexivity.
Qed.

Lemma clampToScreen_in_screen (sb : ScreenBuffer.t) (coord : Coordinate) :
  1 <= rows (ScreenBuffer.size_ sb) ->
  1 <= columns (ScreenBuffer.size_ sb) ->
  1 <= row (ScreenBuffer.clampToScreen sb coord) <= rows (ScreenBuffer.size_ sb)
  /\ 1 <= column (ScreenBuffer.clampToScreen sb coord)
       <= columns (ScreenBuffer.size_ sb).
Proof.
  intros Hr Hc. unfold ScreenBuffer.clampToScreen. simpl.
  split; apply clamp_bounds; assumption.
Qed.

(** What [clampCoordinate] does in each mode. *)
Lemma clampCoordinate_origin_off (sb : ScreenBuffer.t) (coord : Coordinate) :
  ScreenBuffer.cursorRestrictedToMargin sb = false ->
  ScreenBuffer.clampCoordinate sb coord = ScreenBuffer.clampToOrigin sb coord.
Proof. intros H. unfold ScreenBuffer.clampCoordinate. rewrite H. reflexivity. Qed.

Lemma clampCoordinate_origin_on (sb : ScreenBuffer.t) (coord : Coordinate) :
  ScreenBuffer.cursorRestrictedToMargin sb = true ->
  ScreenBuffer.clampCoordinate sb coord = ScreenBuffer.clampToScreen sb coord.
Proof. intros H. unfold ScreenBuffer.clampCoordinate. rewrite H. reflexivity. Qed.

Lemma clampToOrigin_range (sb : ScreenBuffer.t) (coord : Coordinate) :
  0 <= row (ScreenBuffer.clampToOrigin sb coord)
    <= Range.length (vertical (ScreenBuffer.margin_ sb))
  /\ 0 <= column (ScreenBuffer.clampToOrigin sb coord)
       <= Range.length (horizontal (ScreenBuffer.margin_ sb)).
Proof.
  unfold ScreenBuffer.clampToOrigin. simpl.
  split; apply clamp_bounds; unfold Range.length, u32;
    apply Z.mod_pos_bound; lia.
Qed.

(** C1, on the code: with origin mode disabled [clampCoordinate] goes through
    [clampToOrigin], whose lower bound is 0, and returns (0, 0) for (0, 0) on
    a screen of 10 rows and 20 columns; with origin mode enabled and the
    margins at rows 3 to 7 it goes through [clampToScreen] and returns row 10
    for row 10, beyond the 5 rows of the margin region. *)
Theorem clampCoordinate_on_samples :
  (ScreenBuffer.cursorRestrictedToMargin sample_buffer = false
   /\ ScreenBuffer.clampCoordinate sample_buffer (mkCoordinate 0 0)
      = mkCoordinate 0 0)
  /\ (ScreenBuffer.cursorRestrictedToMargin sample_origin_buffer = true
      /\ Range.length (vertical (ScreenBuffer.margin_ sample_origin_buffer)) = 5
      /\ ScreenBuffer.clampCoordinate sample_origin_buffer (mkCoordinate 10 1)
         = mkCoordinate 10 1).
Proof. repeat split. Qed.

(** ** Saved states *)

Lemma moveCursorTo_absolute (sb : ScreenBuffer.t) (to : Coordinate) :
  ScreenBuffer.cursorRestrictedToMargin sb = false ->
  1 <= row to <= rows (ScreenBuffer.size_ sb) ->
  1 <= column to <= columns (ScreenBuffer.size_ sb) ->
  ScreenBuffer.realCursorPosition (Impl.moveCursorTo sb to) = to
  /\ ScreenBuffer.wrapPending (Impl.moveCursorTo sb to) = false
  /\ ScreenBuffer.cursorRestrictedToMargin (Impl.moveCursorTo sb to) = false
  /\ ScreenBuffer.autoWrap (Impl.moveCursorTo sb to) = ScreenBuffer.autoWrap sb
  /\ ScreenBuffer.graphicsRendition (Impl.moveCursorTo sb to)
     = ScreenBuffer.graphicsRendition sb
  /\ ScreenBuffer.enabledModes_ (Impl.moveCursorTo sb to)
     = ScreenBuffer.enabledModes_ sb
  /\ ScreenBuffer.savedStates (Impl.moveCursorTo sb to)
     = ScreenBuffer.savedStates sb.
Proof.
  intros Hom Hr Hc. destruct to as [r c]. simpl in Hr, Hc.
  unfold Impl.moveCursorTo, Impl.clampToActiveRegion,
    ScreenBuffer.toRealCoordinate, ScreenBuffer.clampToScreen,
    ScreenBuffer.realCursorPosition.
  simpl. rewrite Hom. simpl.
  rewrite !clamp_inside by assumption. repeat split.
Qed.

(** C2: with no saved state, [restoreState] puts the cursor at the home
    position (1, 1), both as real and as logical position, selects the
    default graphics rendition, turns autowrap on and origin mode off, on a
    screen of at least one row and one column. *)
Theorem restoreState_empty (sb : ScreenBuffer.t) :
  ScreenBuffer.savedStates sb = [] ->
  1 <= rows (ScreenBuffer.size_ sb) ->
  1 <= columns (ScreenBuffer.size_ sb) ->
  ScreenBuffer.realCursorPosition (Impl.restoreState sb) = mkCoordinate 1 1
  /\ ScreenBuffer.cursorPosition (Impl.restoreState sb) = mkCoordinate 1 1
  /\ ScreenBuffer.graphicsRendition (Impl.restoreState sb)
     = GraphicsAttributes_default
  /\ ScreenBuffer.autoWrap (Impl.restoreState sb) = true
  /\ ScreenBuffer.isModeEnabled (Impl.restoreState sb) AutoWrap = true
  /\ ScreenBuffer.cursorRestrictedToMargin (Impl.restoreState sb) = false
  /\ ScreenBuffer.isModeEnabled (Impl.restoreState sb) Origin = false
  /\ ScreenBuffer.savedStates (Impl.restoreState sb) = [].
Proof.
  intros Hs Hr Hc. unfold Impl.restoreState. rewrite Hs.
  set (sb3 :=
    ScreenBuffer.set_graphicsRendition GraphicsAttributes_default
      (Impl.setMode (Impl.setMode sb Origin false) AutoWrap true)).
  destruct (moveCursorTo_absolute sb3 (mkCoordinate 1 1))
    as (Hpos & _ & Hom & Haw & Hgr & Hmodes & Hst);
    [reflexivity | simpl; lia | simpl; lia |].
  unfold ScreenBuffer.cursorPosition, ScreenBuffer.isModeEnabled.
  rewrite Hom, Haw, Hgr, Hmodes, Hst, Hpos. simpl.
  repeat split; try assumption.
  - apply bool_decide_eq_true_2.
    apply elem_of_union_r, elem_of_singleton. reflexivity.
  - apply bool_decide_eq_false_2.
    rewrite elem_of_union, elem_of_difference, !elem_of_singleton.
    intros [[_ F] | F]; [apply F; reflexivity | discriminate F].
Qed.

(** A save followed by a restore gives back the saved state: the real cursor
    position, the rendition, autowrap and origin mode, when the cursor is
    inside the active region. *)
Lemma saveState_restoreState (sb : ScreenBuffer.t) :
  ScreenBuffer.cursorRestrictedToMargin sb = false ->
  1 <= row (Cursor.coord (ScreenBuffer.cursor sb))
    <= rows (ScreenBuffer.size_ sb) ->
  1 <= column (Cursor.coord (ScreenBuffer.cursor sb))
    <= columns (ScreenBuffer.size_ sb) ->
  ScreenBuffer.realCursorPosition (Impl.restoreState (Impl.saveState sb))
    = ScreenBuffer.realCursorPosition sb
  /\ ScreenBuffer.graphicsRendition (Impl.restoreState (Impl.saveState sb))
     = ScreenBuffer.graphicsRendition sb
  /\ ScreenBuffer.autoWrap (Impl.restoreState (Impl.saveState sb))
     = ScreenBuffer.autoWrap sb
  /\ ScreenBuffer.cursorRestrictedToMargin
       (Impl.restoreState (Impl.saveState sb)) = false
  /\ ScreenBuffer.savedStates (Impl.restoreState (Impl.saveState sb))
     = ScreenBuffer.savedStates sb.
Proof.
  intros Hom Hr Hc.
  unfold Impl.restoreState, Impl.saveState, Impl.moveCursorTo,
    Impl.clampToActiveRegion, Impl.setMode, ScreenBuffer.toRealCoordinate,
    ScreenBuffer.clampToScreen, ScreenBuffer.cursorPosition,
    ScreenBuffer.realCursorPosition.
  simpl. rewrite Hom. simpl.
  rewrite !clamp_inside by assumption. repeat split.
Qed.

(** ** Erase *)

Lemma cellAt_erase (cmd : Impl.EraseCommand) (sb : ScreenBuffer.t)
    (i j : nat) :
  Impl.cellAt (Impl.erase cmd sb) i j
  = (fun cell =>
       if Impl.isTarget cmd (ScreenBuffer.realCursorPosition sb)
            (Z.of_nat i + 1) (Z.of_nat j + 1)
       then Impl.eraseCell sb cell else cell)
    <$> Impl.cellAt sb i j.
Proof.
  unfold Impl.cellAt, Impl.erase. simpl.
  rewrite list_lookup_imap.
  destruct (ScreenBuffer.lines sb !! i) as [line |]; simpl; [| reflexivity].
  rewrite list_lookup_imap. reflexivity.
Qed.

Lemma erase_keeps_others (cmd : Impl.EraseCommand) (sb : ScreenBuffer.t)
    (i j : nat) :
  Impl.isTarget cmd (ScreenBuffer.realCursorPosition sb)
    (Z.of_nat i + 1) (Z.of_nat j + 1) = false ->
  Impl.cellAt (Impl.erase cmd sb) i j = Impl.cellAt sb i j.
Proof.
  intros H. rewrite cellAt_erase, H.
  destruct (Impl.cellAt sb i j); reflexivity.
Qed.

(** C5: every erase command replaces each cell it targets with a reset cell:
    no code point, width 1, the current background colour in the attributes,
    and no hyperlink. *)
Theorem erase_resets_targets (cmd : Impl.EraseCommand) (sb : ScreenBuffer.t)
    (i j : nat) (cell : Cell.t) :
  Impl.cellAt sb i j = Some cell ->
  Impl.isTarget cmd (ScreenBuffer.realCursorPosition sb)
    (Z.of_nat i + 1) (Z.of_nat j + 1) = true ->
  exists cell' : Cell.t,
    Impl.cellAt (Impl.erase cmd sb) i j = Some cell'
    /\ Cell.codepointCount cell' = 0
    /\ Cell.width cell' = 1
    /\ backgroundColor (Cell.attributes cell')
       = backgroundColor (ScreenBuffer.graphicsRendition sb)
    /\ Cell.hyperlink cell' = None.
Proof.
  intros Hcell Htarget. exists (Impl.eraseCell sb cell).
  rewrite cellAt_erase, Hcell, Htarget. repeat split.
Qed.

(** ** The properties on the sample data *)

Lemma appendCharacter_bounded_witness :
  Cell.typed sample_cell
  /\ Cell.codepointCount sample_cell < 9
  /\ Cell.codepoints (Cell.appendCharacter sample_width sample_cell 0x41).2
     = Cell.codepoints sample_cell ++ [0x41]
  /\ Cell.codepointCount (Cell.appendCharacter sample_width sample_cell 0x41).2
     = Cell.codepointCount sample_cell + 1.
Proof.
  assert (H : Cell.typed sample_cell) by by_evaluation.
  assert (Hc : Cell.codepointCount sample_cell < 9) by reflexivity.
  split; [exact H |]. split; [exact Hc |].
  exact (proj1 (appendCharacter_bounded sample_width sample_cell 0x41 H) Hc).
Defined.

(** C4, on the code: with a width table that gives U+FE0F no column,
    [setCharacter] stores the width 0 for U+FE0F, where the claim says 2, and
    its own assertion fires; [appendCharacter], the sibling path, takes the
    same code point as two columns wide. *)
Theorem setCharacter_FE0F_fires :
  sample_width 0xFE0F = 0
  /\ (exists c',
       Cell.setCharacter sample_width Cell.default 0xFE0F = AssertFires c'
       /\ Cell.width c' = 0)
  /\ Cell.width (Cell.appendCharacter sample_width sample_cell 0xFE0F).2 = 2.
Proof.
  split; [reflexivity |]. split; [| reflexivity].
  eexists. split; reflexivity.
Qed.

Lemma written_scalar_width_witness :
  Cell.typed sample_cell
  /\ is_u8 (sample_width 0xFE0F)
  /\ Cell.codepointCount sample_cell < 9
  /\ Cell.width (Cell.appendCharacter sample_width sample_cell 0xFE0F).2
     = Z.max (Cell.width sample_cell) 2
  /\ (Cell.appendCharacter sample_width sample_cell 0xFE0F).1
     = Z.max (Cell.width sample_cell) 2 - Cell.width sample_cell.
Proof.
  assert (H : Cell.typed sample_cell) by by_evaluation.
  assert (Hu : is_u8 (sample_width 0xFE0F)) by by_evaluation.
  assert (Hc : Cell.codepointCount sample_cell < 9) by reflexivity.
  split; [exact H |]. split; [exact Hu |]. split; [exact Hc |].
  exact (proj1 (written_scalar_width sample_width sample_cell 0xFE0F H Hu) Hc).
Defined.

Lemma setCharacter_assertion_witness :
  Cell.typed Cell.default
  /\ is_u8 (sample_width 0x41)
  /\ (0x41 = 0 \/ 1 <= sample_width 0x41)
  /\ exists c',
       Cell.setCharacter sample_width Cell.default 0x41 = AssertHolds c'
       /\ Cell.width c' <> 0
       /\ (0x41 = 0 -> Cell.empty c' = true).
Proof.
  assert (H : Cell.typed Cell.default) by by_evaluation.
  assert (Hu : is_u8 (sample_width 0x41)) by by_evaluation.
  assert (Hp : 0x41 = 0 \/ 1 <= sample_width 0x41)
    by (right; vm_compute; congruence).
  split; [exact H |]. split; [exact Hu |]. split; [exact Hp |].
  exact (proj1 (setCharacter_assertion sample_width Cell.default 0x41 H Hu) Hp).
Defined.

(** A combining mark as the base of a cell: the assertion fires. *)
Example setCharacter_combining_mark :
  exists c',
    Cell.setCharacter sample_width Cell.default 0x0301 = AssertFires c'.
Proof. eexists. reflexivity. Qed.

(** Two cells with the same text and attributes compare equal although
    their widths and hyperlinks differ. *)
Example Cell_eqb_sample :
  Cell.width sample_cell <> Cell.width sample_cell_linked
  /\ Cell.hyperlink sample_cell <> Cell.hyperlink sample_cell_linked
  /\ Cell.eqb sample_cell sample_cell_linked = true.
Proof. repeat split; discriminate. Qed.

Lemma cursor_translation_witness :
  is_u32 (row (Cursor.coord (ScreenBuffer.cursor sample_origin_buffer)))
  /\ is_u32 (column (Cursor.coord (ScreenBuffer.cursor sample_origin_buffer)))
  /\ ScreenBuffer.toRealCoordinate sample_origin_buffer
       (ScreenBuffer.cursorPosition sample_origin_buffer)
     = ScreenBuffer.realCursorPosition sample_origin_buffer.
Proof.
  assert (Hr : is_u32
    (row (Cursor.coord (ScreenBuffer.cursor sample_origin_buffer))))
    by by_evaluation.
  assert (Hc : is_u32
    (column (Cursor.coord (ScreenBuffer.cursor sample_origin_buffer))))
    by by_evaluation.
  split; [exact Hr |]. split; [exact Hc |].
  exact (proj1 (cursor_translation sample_origin_buffer Hr Hc)).
Defined.

(** The logical position of the cursor of the sample with origin mode: the
    cursor at the real row 1 is above the margin, and its logical row wraps
    around. *)
Example cursorPosition_sample :
  ScreenBuffer.cursorPosition sample_origin_buffer
  = mkCoordinate (2 ^ 32 - 1) 1.
Proof. reflexivity. Qed.

Lemma restoreState_empty_witness :
  ScreenBuffer.savedStates sample_origin_buffer = []
  /\ 1 <= rows (ScreenBuffer.size_ sample_origin_buffer)
  /\ 1 <= columns (ScreenBuffer.size_ sample_origin_buffer)
  /\ ScreenBuffer.realCursorPosition (Impl.restoreState sample_origin_buffer)
     = mkCoordinate 1 1
  /\ ScreenBuffer.cursorRestrictedToMargin
       (Impl.restoreState sample_origin_buffer) = false.
Proof.
  assert (Hs : ScreenBuffer.savedStates sample_origin_buffer = [])
    by reflexivity.
  assert (Hr : 1 <= rows (ScreenBuffer.size_ sample_origin_buffer))
    by (simpl; lia).
  assert (Hc : 1 <= columns (ScreenBuffer.size_ sample_origin_buffer))
    by (simpl; lia).
  split; [exact Hs |]. split; [exact Hr |]. split; [exact Hc |].
  pose proof (restoreState_empty sample_origin_buffer Hs Hr Hc) as H.
  split; [exact (proj1 H) |].
  exact (proj1 (proj2 (proj2 (proj2 (proj2 (proj2 H)))))).
Defined.

Lemma erase_resets_targets_witness :
  Impl.cellAt sample_painted_buffer 1 2 = Some sample_cell_linked
  /\ Impl.isTarget Impl.ClearToBeginOfLine
       (ScreenBuffer.realCursorPosition sample_painted_buffer)
       (Z.of_nat 1 + 1) (Z.of_nat 2 + 1) = true
  /\ exists cell' : Cell.t,
       Impl.cellAt (Impl.erase Impl.ClearToBeginOfLine sample_painted_buffer)
         1 2 = Some cell'
       /\ Cell.codepointCount cell' = 0
       /\ Cell.width cell' = 1
       /\ backgroundColor (Cell.attributes cell')
          = backgroundColor (ScreenBuffer.graphicsRendition sample_painted_buffer)
       /\ Cell.hyperlink cell' = None.
Proof.
  assert (Hcell :
    Impl.cellAt sample_painted_buffer 1 2 = Some sample_cell_linked)
    by reflexivity.
  assert (Ht :
    Impl.isTarget Impl.ClearToBeginOfLine
      (ScreenBuffer.realCursorPosition sample_painted_buffer)
      (Z.of_nat 1 + 1) (Z.of_nat 2 + 1) = true)
    by reflexivity.
  split; [exact Hcell |]. split; [exact Ht |].
  exact (erase_resets_targets Impl.ClearToBeginOfLine sample_painted_buffer
           1 2 sample_cell_linked Hcell Ht).
Defined.

(** The cell after the cursor keeps its content when the line is erased up
    to the cursor. *)
Example erase_sample_untouched :
  Impl.cellAt (Impl.erase Impl.ClearToBeginOfLine sample_painted_buffer) 1 3
  = Some Cell.default.
Proof. reflexivity. Qed.

(** * Further properties of the header *)

(** ** Cells: what the mutators keep and what they replace *)

Lemma Cell_eqb_iff (x y : Cell.t) :
  Cell.eqb x y = true <->
  Cell.codepointCount x = Cell.codepointCount y
  /\ Cell.attributes x = Cell.attributes y
  /\ forall i : nat, (i < Z.to_nat (Cell.codepointCount x))%nat ->
       Cell.codepoint x i = Cell.codepoint y i.
Proof.
  unfold Cell.eqb.
  destruct (Z.eqb_spec (Cell.codepointCount x) (Cell.codepointCount y))
    as [En | En]; simpl; [| split; [discriminate | tauto]].
  destruct (GraphicsAttributes_eqb (Cell.attributes x) (Cell.attributes y))
    eqn:Ea; simpl.
  - apply GraphicsAttributes_eqb_eq in Ea.
    rewrite codepoints_eqb_from_spec. split.
    + intros H. repeat split; try assumption. intros i Hi. apply H. lia.
    + intros (_ & _ & H) k Hk. apply H. lia.
  - split; [discriminate |]. intros (_ & F & _).
    apply GraphicsAttributes_eqb_eq in F. congruence.
Qed.

Lemma take_eq_pointwise (l1 l2 : list Z) (n : nat) :
  (n <= List.length l1)%nat -> (n <= List.length l2)%nat ->
  take n l1 = take n l2 <->
  forall i : nat, (i < n)%nat -> nth i l1 0 = nth i l2 0.
Proof.
  intros H1 H2. split.
  - intros E i Hi.
    rewrite !nth_lookup.
    rewrite <- (lookup_take_lt l1 n i), <- (lookup_take_lt l2 n i) by exact Hi.
    rewrite E. reflexivity.
  - intros H. apply list_eq. intros i.
    destruct (decide (i < n)%nat) as [Hi | Hi].
    + rewrite !lookup_take_lt by exact Hi.
      destruct (lookup_lt_is_Some_2 l1 i) as [x Hx]; [lia |].
      destruct (lookup_lt_is_Some_2 l2 i) as [y Hy]; [lia |].
      specialize (H i Hi). rewrite !nth_lookup, Hx, Hy in H. simpl in H.
      congruence.
    + rewrite !lookup_take_ge by lia. reflexivity.
Qed.

Section CellMutators.

Variable unicode_width : Z -> Z.

(** X1: [setCharacter] replaces the whole cluster: whatever the cell held,
    afterwards its code points are the new one alone, or none for NUL, which
    leaves an empty cell of width 1; the attributes and the hyperlink are
    kept. *)
Theorem setCharacter_replaces (c : Cell.t) (cp : Z) :
  Cell.typed c ->
  (cp <> 0 ->
     Cell.codepoints (unchecked (Cell.setCharacter unicode_width c cp)) = [cp])
  /\ (cp = 0 ->
      Cell.codepoints (unchecked (Cell.setCharacter unicode_width c cp)) = []
      /\ Cell.empty (unchecked (Cell.setCharacter unicode_width c cp)) = true
      /\ Cell.width (unchecked (Cell.setCharacter unicode_width c cp)) = 1)
  /\ Cell.attributes (unchecked (Cell.setCharacter unicode_width c cp))
     = Cell.attributes c
  /\ Cell.hyperlink (unchecked (Cell.setCharacter unicode_width c cp))
     = Cell.hyperlink c.
Proof.
  intros (Hlen & _ & _). unfold Cell.setCharacter, Cell.codepoints.
  destruct (Cell.codepoints_ c) as [| x rest] eqn:E;
    [simpl in Hlen; discriminate |].
  destruct (Z.eqb_spec cp 0) as [-> | Hcp]; simpl.
  - repeat split; intros; try reflexivity; contradiction.
  - destruct (u8 (unicode_width cp) =? 0); simpl;
      repeat split; intros; try reflexivity; contradiction.
Qed.

(** X2: the default cell holds at most 9 code points within the ranges of
    its fields, and every mutator of a cell keeps that: [setCharacter],
    [appendCharacter], both [reset] and [setHyperlink]. *)
Theorem Cell_bounded_kept (c : Cell.t) (cp : Z) (attribs : GraphicsAttributes)
    (h : HyperlinkRef) :
  Cell_bounded c ->
  Cell_bounded Cell.default
  /\ Cell_bounded (unchecked (Cell.setCharacter unicode_width c cp))
  /\ Cell_bounded (Cell.appendCharacter unicode_width c cp).2
  /\ Cell_bounded (Cell.reset c)
  /\ Cell_bounded (Cell.reset_with c attribs h)
  /\ Cell_bounded (Cell.setHyperlink c h).
Proof.
  intros [Ht Hn].
  assert (Hm8 : forall x, is_u8 (u8 x))
    by (intros x; unfold is_u8, u8; apply Z.mod_pos_bound; lia).
  pose proof Ht as (Hlen & Hw & Hc).
  unfold Cell_bounded, Cell.typed, is_u8, Cell.MaxCodepoints in *.
  split; [simpl; lia |]. split; [| split; [| simpl; lia]].
  - unfold Cell.setCharacter.
    destruct (cp =? 0); simpl;
      [| destruct (u8 (unicode_width cp) =? 0); simpl];
      rewrite length_insert; pose proof (Hm8 (unicode_width cp));
      unfold is_u8 in *; lia.
  - destruct (Z.eq_dec (Cell.codepointCount_ c) 9) as [E | E].
    + rewrite appendCharacter_full by (unfold Cell.MaxCodepoints; lia).
      simpl. lia.
    + split; [exact (appendCharacter_typed unicode_width c cp Ht) |].
      destruct (appendCharacter_appends unicode_width c cp Ht) as [_ Hcnt];
        [lia |].
      rewrite Hcnt. lia.
Qed.

(** X3: [appendCharacter] keeps the attributes and the hyperlink of the
    cell, keeps the code points that were stored as a prefix of the new
    ones, and never makes the cell narrower, for a width that the byte field
    holds. *)
Theorem appendCharacter_keeps (c : Cell.t) (cp : Z) :
  Cell.typed c ->
  is_u8 (unicode_width cp) ->
  Cell.attributes (Cell.appendCharacter unicode_width c cp).2
    = Cell.attributes c
  /\ Cell.hyperlink (Cell.appendCharacter unicode_width c cp).2
     = Cell.hyperlink c
  /\ Cell.codepoints c
       `prefix_of` Cell.codepoints (Cell.appendCharacter unicode_width c cp).2
  /\ Cell.width c <= Cell.width (Cell.appendCharacter unicode_width c cp).2.
Proof.
  intros Ht Hu.
  assert (Hframe :
    Cell.attributes (Cell.appendCharacter unicode_width c cp).2
      = Cell.attributes c
    /\ Cell.hyperlink (Cell.appendCharacter unicode_width c cp).2
       = Cell.hyperlink c).
  { unfold Cell.appendCharacter.
    destruct (Cell.codepointCount_ c <? Cell.MaxCodepoints); [| split; reflexivity].
    destruct (Cell.appendWidth unicode_width cp >? Cell.width_ c);
      split; reflexivity. }
  destruct Hframe as [Ha Hh]. split; [exact Ha |]. split; [exact Hh |].
  destruct (Z.lt_ge_cases (Cell.codepointCount_ c) 9) as [Hc | Hc].
  - destruct (appendCharacter_appends unicode_width c cp Ht Hc) as [-> _].
    split; [apply prefix_app_r; reflexivity |].
    assert (Hw8 : is_u8 (Cell.appendWidth unicode_width cp)).
    { unfold Cell.appendWidth.
      destruct (cp =? 0xFE0F); [unfold is_u8; lia | exact Hu]. }
    destruct (appendCharacter_grows unicode_width c cp Ht Hw8 Hc) as [Hw _].
    unfold Cell.width. rewrite Hw. lia.
  - rewrite appendCharacter_full by (unfold Cell.MaxCodepoints; lia).
    simpl. split; [reflexivity | lia].
Qed.

End CellMutators.

(** X4: a reset cell compares equal to a default-constructed cell, whatever
    it held before and whatever stays in its array; two cells reset with the
    same attributes compare equal whatever their hyperlinks. *)
Theorem reset_eqb_default (c c' : Cell.t) (attribs : GraphicsAttributes)
    (h h' : HyperlinkRef) :
  Cell.eqb (Cell.reset c) Cell.default = true
  /\ Cell.eqb (Cell.reset_with c attribs h) (Cell.reset_with c' attribs h')
     = true.
Proof.
  split; apply Cell_eqb_iff; simpl; repeat split; intros i Hi; lia.
Qed.

(** X5: cell equality is an equivalence relation. *)
Theorem Cell_eqb_equivalence (a b c : Cell.t) :
  Cell.eqb a a = true
  /\ Cell.eqb a b = Cell.eqb b a
  /\ (Cell.eqb a b = true -> Cell.eqb b c = true -> Cell.eqb a c = true).
Proof.
  split; [| split].
  - apply Cell_eqb_iff. repeat split.
  - apply eq_true_iff_eq. rewrite !Cell_eqb_iff. split.
    + intros (Hn & Ha & H). repeat split; try congruence.
      intros i Hi. symmetry. apply H. rewrite Hn. exact Hi.
    + intros (Hn & Ha & H). repeat split; try congruence.
      intros i Hi. symmetry. apply H. rewrite Hn. exact Hi.
  - rewrite !Cell_eqb_iff. intros (Hn & Ha & H) (Hn' & Ha' & H').
    repeat split; try congruence.
    intros i Hi. rewrite H by exact Hi. apply H'. rewrite <- Hn. exact Hi.
Qed.

(** X6: two cells that hold at most 9 code points compare equal exactly
    when their counts, their attributes and their code points, as
    [codepoints()] shows them, are equal. *)
Theorem Cell_eqb_views (a b : Cell.t) :
  Cell_bounded a -> Cell_bounded b ->
  Cell.eqb a b = true <->
  Cell.codepointCount a = Cell.codepointCount b
  /\ Cell.attributes a = Cell.attributes b
  /\ Cell.codepoints a = Cell.codepoints b.
Proof.
  intros [(Hla & _ & Hca) Hna] [(Hlb & _ & Hcb) Hnb].
  unfold is_u8, Cell.MaxCodepoints in *.
  rewrite Cell_eqb_iff. unfold Cell.codepoints, Cell.codepointCount, Cell.codepoint.
  split; intros (Hn & Ha & H); (split; [exact Hn |]); (split; [exact Ha |]).
  - rewrite <- Hn. apply take_eq_pointwise; [lia | lia | exact H].
  - rewrite <- Hn in H. revert H. apply take_eq_pointwise; lia.
Qed.

(** X7: [operator==] on graphics attributes holds exactly for equal
    attributes, and [operator!=] exactly for different ones. *)
Theorem GraphicsAttributes_equality (a b : GraphicsAttributes) :
  (GraphicsAttributes_eqb a b = true <-> a = b)
  /\ (GraphicsAttributes_neqb a b = true <-> a <> b).
Proof.
  split; [apply GraphicsAttributes_eqb_eq |].
  unfold GraphicsAttributes_neqb. rewrite negb_true_iff.
  rewrite <- GraphicsAttributes_eqb_eq.
  destruct (GraphicsAttributes_eqb a b); split; congruence.
Qed.

(** ** Margins and clamping *)

Lemma clamp_idempotent (v lo hi : Z) :
  lo <= hi -> clamp (clamp v lo hi) lo hi = clamp v lo hi.
Proof. intros H. apply clamp_inside. apply clamp_bounds. exact H. Qed.

(** X8: for a range of 32-bit bounds with [from <= to], [length()] is 0
    exactly for the range of all 32-bit values, where it wraps around;
    otherwise it is [to - from + 1], and [contains] accepts exactly the
    [length()] values from [from] on. *)
Theorem Range_length_contains (r : Range.t) (v : Z) :
  is_u32 (Range.from r) -> is_u32 (Range.to r) ->
  Range.from r <= Range.to r ->
  (Range.length r = 0 <-> Range.from r = 0 /\ Range.to r = 2 ^ 32 - 1)
  /\ (Range.length r <> 0 ->
      Range.length r = Range.to r - Range.from r + 1
      /\ (Range.contains r v = true <->
          exists k : Z, 0 <= k < Range.length r /\ v = Range.from r + k)).
Proof.
  unfold is_u32, Range.length, Range.contains, u32. intros Hf Ht Hle.
  destruct (Z.eq_dec (Range.to r - Range.from r + 1) (2 ^ 32)) as [E | E].
  - rewrite E, Z_mod_same_full. split; [| intros F; contradiction].
    split; [intros _; lia | reflexivity].
  - rewrite Z.mod_small by lia. split; [lia |]. intros _.
    split; [reflexivity |].
    rewrite andb_true_iff, !Z.leb_le. split.
    + intros [H1 H2]. exists (v - Range.from r). lia.
    + intros (k & Hk & ->). lia.
Qed.

(** X9: on a screen of at least one row and one column, [clampToScreen]
    returns a coordinate that [Screen::contains] accepts, returns a
    coordinate that is accepted already as it is, and clamping twice is
    clamping once. *)
Theorem clampToScreen_contained (sb : ScreenBuffer.t) (coord : Coordinate) :
  1 <= rows (ScreenBuffer.size_ sb) ->
  1 <= columns (ScreenBuffer.size_ sb) ->
  Screen.contains (ScreenBuffer.size_ sb) (ScreenBuffer.clampToScreen sb coord)
    = true
  /\ (Screen.contains (ScreenBuffer.size_ sb) coord = true ->
      ScreenBuffer.clampToScreen sb coord = coord)
  /\ ScreenBuffer.clampToScreen sb (ScreenBuffer.clampToScreen sb coord)
     = ScreenBuffer.clampToScreen sb coord.
Proof.
  intros Hr Hc.
  destruct (clampToScreen_in_screen sb coord Hr Hc) as [Hrow Hcol].
  split; [| split].
  - unfold Screen.contains. rewrite !andb_true_iff, !Z.leb_le. lia.
  - unfold Screen.contains. rewrite !andb_true_iff, !Z.leb_le.
    intros H. destruct coord as [r c]. unfold ScreenBuffer.clampToScreen.
    simpl in *. rewrite !clamp_inside by lia. reflexivity.
  - unfold ScreenBuffer.clampToScreen. simpl.
    rewrite !clamp_idempotent by assumption. reflexivity.
Qed.

(** X10: what [clampCoordinate] returns, on a screen of at least one row and
    one column: with origin mode enabled a coordinate that
    [Screen::contains] accepts; with origin mode disabled a row between 0 and
    the length of the vertical margin and a column between 0 and the length
    of the horizontal margin; in both modes clamping twice is clamping
    once. *)
Theorem clampCoordinate_regions (sb : ScreenBuffer.t) (coord : Coordinate) :
  1 <= rows (ScreenBuffer.size_ sb) ->
  1 <= columns (ScreenBuffer.size_ sb) ->
  (ScreenBuffer.cursorRestrictedToMargin sb = true ->
     Screen.contains (ScreenBuffer.size_ sb)
       (ScreenBuffer.clampCoordinate sb coord) = true)
  /\ (ScreenBuffer.cursorRestrictedToMargin sb = false ->
      0 <= row (ScreenBuffer.clampCoordinate sb coord)
        <= Range.length (vertical (ScreenBuffer.margin_ sb))
      /\ 0 <= column (ScreenBuffer.clampCoordinate sb coord)
           <= Range.length (horizontal (ScreenBuffer.margin_ sb)))
  /\ ScreenBuffer.clampCoordinate sb (ScreenBuffer.clampCoordinate sb coord)
     = ScreenBuffer.clampCoordinate sb coord.
Proof.
  intros Hr Hc.
  destruct (clampToScreen_in_screen sb coord Hr Hc) as [Hrow Hcol].
  pose proof (clampToOrigin_range sb coord) as [Orow Ocol].
  split; [| split].
  - intros Hom. rewrite clampCoordinate_origin_on by exact Hom.
    unfold Screen.contains. rewrite !andb_true_iff, !Z.leb_le. lia.
  - intros Hom. rewrite clampCoordinate_origin_off by exact Hom.
    split; assumption.
  - destruct (ScreenBuffer.cursorRestrictedToMargin sb) eqn:Hom.
    + rewrite !clampCoordinate_origin_on by exact Hom.
      unfold ScreenBuffer.clampToScreen. simpl.
      rewrite !clamp_idempotent by assumption. reflexivity.
    + rewrite !clampCoordinate_origin_off by exact Hom.
      unfold ScreenBuffer.clampToOrigin. simpl.
      rewrite !clamp_idempotent
        by (unfold Range.length, u32; apply Z.mod_pos_bound; lia).
      reflexivity.
Qed.

(** X12: the logical home (1, 1) translates to [origin()], and a cursor at
    [origin()] has the logical position (1, 1), in either mode, for margins
    that start at 32-bit values. *)
Theorem home_is_origin (sb : ScreenBuffer.t) :
  is_u32 (Range.from (vertical (ScreenBuffer.margin_ sb))) ->
  is_u32 (Range.from (horizontal (ScreenBuffer.margin_ sb))) ->
  ScreenBuffer.toRealCoordinate sb (mkCoordinate 1 1) = ScreenBuffer.origin sb
  /\ (ScreenBuffer.realCursorPosition sb = ScreenBuffer.origin sb ->
      ScreenBuffer.cursorPosition sb = mkCoordinate 1 1).
Proof.
  unfold is_u32. intros Hv Hh.
  unfold ScreenBuffer.toRealCoordinate, ScreenBuffer.origin,
    ScreenBuffer.cursorPosition.
  destruct (ScreenBuffer.cursorRestrictedToMargin sb); simpl.
  - split.
    + unfold u32.
      rewrite (Zminus_mod_idemp_l (1 + Range.from (vertical (ScreenBuffer.margin_ sb))) 1).
      rewrite (Zminus_mod_idemp_l (1 + Range.from (horizontal (ScreenBuffer.margin_ sb))) 1).
      rewrite !Z.mod_small by lia. f_equal; lia.
    + unfold ScreenBuffer.realCursorPosition. intros E.
      injection E as -> ->. rewrite !Z.sub_diag. reflexivity.
  - split; [reflexivity | intros E; exact E].
Qed.

(** ** Lines *)

(** X13: [resize] gives a line of the requested size: the cells below both
    sizes are kept, the cells from the old size on are default cells, and the
    mark is kept; resizing to the size the line has changes nothing, and a
    line of default cells resized is the line of default cells of the new
    size. *)
Theorem Line_resize_spec (l : Line.t) (n : Z) :
  Line.size (Line.resize l n) = Z.to_nat n
  /\ (forall j : nat, (j < Z.to_nat n)%nat -> (j < Line.size l)%nat ->
        Line.buffer (Line.resize l n) !! j = Line.buffer l !! j)
  /\ (forall j : nat, (Line.size l <= j < Z.to_nat n)%nat ->
        Line.buffer (Line.resize l n) !! j = Some Cell.default)
  /\ Line.marked (Line.resize l n) = Line.marked l
  /\ Line.resize l (Z.of_nat (Line.size l)) = l
  /\ (forall m : Z,
        Line.resize (Line.make m Cell.default) n = Line.make n Cell.default).
Proof.
  unfold Line.resize, Line.size, Line.make. simpl.
  split; [| split; [| split; [| split; [reflexivity | split]]]].
  - rewrite length_app, length_take, length_replicate. lia.
  - intros j Hn Hl.
    rewrite lookup_app_l by (rewrite length_take; lia).
    apply lookup_take_lt. exact Hn.
  - intros j [Hl Hn].
    rewrite lookup_app_r by (rewrite length_take; lia).
    rewrite length_take. apply lookup_replicate_2. lia.
  - destruct l as [buf mk]. simpl. f_equal.
    rewrite Nat2Z.id, take_ge by lia.
    rewrite Nat.sub_diag. simpl. apply app_nil_r.
  - intros m. f_equal.
    rewrite take_replicate, length_replicate, <- replicate_add.
    f_equal. lia.
Qed.

(** ** The screen buffer after construction, and its iterators *)

(** X14: a buffer constructed for a screen of at least one row and one
    column holds default cells only, in unmarked lines; its cursor is on the
    screen and inside the margins, at the logical position (1, 1); and its
    iterators designate the first line and the first cell of it. *)
Theorem make_invariants (type : ScreenBuffer.BufferType) (size : WindowSize)
    (maxHistory : option Z) :
  1 <= rows size -> 1 <= columns size ->
  Forall
    (fun line =>
       Forall (fun cell => cell = Cell.default) (Line.buffer line)
       /\ Line.marked line = false)
    (ScreenBuffer.lines (ScreenBuffer.make type size maxHistory))
  /\ Screen.contains size
       (ScreenBuffer.realCursorPosition (ScreenBuffer.make type size maxHistory))
     = true
  /\ ScreenBuffer.isCursorInsideMargins (ScreenBuffer.make type size maxHistory)
     = true
  /\ ScreenBuffer.cursorPosition (ScreenBuffer.make type size maxHistory)
     = mkCoordinate 1 1
  /\ exists line : Line.t,
       ScreenBuffer.lines (ScreenBuffer.make type size maxHistory)
         !! ScreenBuffer.currentLine (ScreenBuffer.make type size maxHistory)
       = Some line
       /\ Line.buffer line
            !! (ScreenBuffer.currentColumn
                  (ScreenBuffer.make type size maxHistory)).2
          = Some Cell.default.
Proof.
  intros Hr Hc. split; [| split; [| split; [| split]]].
  - simpl. apply Forall_replicate. split; [| reflexivity].
    simpl. apply Forall_replicate. reflexivity.
  - unfold Screen.contains. simpl.
    rewrite !andb_true_iff, !Z.leb_le. lia.
  - unfold ScreenBuffer.isCursorInsideMargins, Range.contains. simpl.
    rewrite !andb_true_iff, !Z.leb_le. repeat split; lia.
  - reflexivity.
  - exists (Line.make (columns size) Cell.default). simpl. split.
    + apply lookup_replicate_2. lia.
    + apply lookup_replicate_2. lia.
Qed.

(** X15: in a grid of [size_.rows] lines of [size_.columns] cells, for a
    size of 32-bit values and a cursor on the screen,
    [updateCursorIterators] makes the iterators designate the line and the
    cell of the cursor, which exist, and changes neither the cursor nor the
    grid. *)
Theorem updateCursorIterators_designates (sb : ScreenBuffer.t) :
  grid_shaped sb ->
  is_u32 (rows (ScreenBuffer.size_ sb)) ->
  is_u32 (columns (ScreenBuffer.size_ sb)) ->
  Screen.contains (ScreenBuffer.size_ sb) (ScreenBuffer.realCursorPosition sb)
    = true ->
  (exists (line : Line.t) (cell : Cell.t) (j : nat),
     ScreenBuffer.lines sb
       !! ScreenBuffer.currentLine (ScreenBuffer.updateCursorIterators sb)
     = Some line
     /\ ScreenBuffer.currentColumn (ScreenBuffer.updateCursorIterators sb)
        = (ScreenBuffer.currentLine (ScreenBuffer.updateCursorIterators sb), j)
     /\ Line.buffer line !! j = Some cell
     /\ Z.of_nat (ScreenBuffer.currentLine (ScreenBuffer.updateCursorIterators sb))
        = row (Cursor.coord (ScreenBuffer.cursor sb)) - 1
     /\ Z.of_nat j = column (Cursor.coord (ScreenBuffer.cursor sb)) - 1)
  /\ ScreenBuffer.lines (ScreenBuffer.updateCursorIterators sb)
     = ScreenBuffer.lines sb
  /\ ScreenBuffer.cursor (ScreenBuffer.updateCursorIterators sb)
     = ScreenBuffer.cursor sb.
Proof.
  intros [Hlen Hcols] Hr Hc. unfold is_u32 in *.
  unfold Screen.contains. simpl.
  rewrite !andb_true_iff, !Z.leb_le. intros [[[R1 R2] C1] C2].
  split; [| split; reflexivity].
  set (r := row (Cursor.coord (ScreenBuffer.cursor sb))) in *.
  set (c := column (Cursor.coord (ScreenBuffer.cursor sb))) in *.
  rewrite !u32_small by (unfold is_u32; lia).
  destruct (lookup_lt_is_Some_2 (ScreenBuffer.lines sb) (Z.to_nat (r - 1)))
    as [line Hline]; [lia |].
  assert (Hsz : Line.size line
                = Z.to_nat (columns (ScreenBuffer.size_ sb))).
  { rewrite Forall_lookup in Hcols. exact (Hcols _ _ Hline). }
  destruct (lookup_lt_is_Some_2 (Line.buffer line) (Z.to_nat (c - 1)))
    as [cell Hcell]; [unfold Line.size in Hsz; lia |].
  exists line, cell, (Z.to_nat (c - 1)).
  repeat split; try assumption; try lia.
  unfold ScreenBuffer.columnIteratorAt. simpl.
  rewrite u32_small by (unfold is_u32; lia). reflexivity.
Qed.

(** ** Character styles *)

Lemma string_app_nil_r (s : string) : String.append s EmptyString = s.
Proof.
  induction s as [| a s IH]; [reflexivity |].
  change (String a (String.append s EmptyString) = String a s).
  now rewrite IH.
Qed.

Lemma string_app_assoc (s1 s2 s3 : string) :
  String.append (String.append s1 s2) s3
  = String.append s1 (String.append s2 s3).
Proof.
  induction s1 as [| a s1 IH]; [reflexivity |].
  change (String a (String.append (String.append s1 s2) s3)
          = String a (String.append s1 (String.append s2 s3))).
  now rewrite IH.
Qed.

(** The names of the table whose style is set in [mask], in table order. *)
Lemma format_fold (mask : Z) (table : list (CharacterStyleMask.Mask * string))
    (os : string) :
  fold_left (CharacterStyleMask.format_step mask) table (0, os)
  = (0,
     String.append os
       (fold_right String.append EmptyString
          (map snd
             (List.filter
                (fun mapping : CharacterStyleMask.Mask * string =>
                   negb (Z.land mask (CharacterStyleMask.value mapping.1) =? 0))
                table)))).
Proof.
  revert os. induction table as [| mapping table IH]; intros os; simpl.
  - now rewrite string_app_nil_r.
  - unfold CharacterStyleMask.format_step at 2. simpl.
    destruct (Z.land mask (CharacterStyleMask.value mapping.1) =? 0); simpl.
    + apply IH.
    + rewrite IH, string_app_assoc. reflexivity.
Qed.

(** X16: the formatter of a style mask writes the names of the styles that
    are set among the ten of its table, in table order and with nothing
    between two names, as the counter that guards the separator stays 0. Its
    text depends on the low ten bits of the mask only: a mask with none of
    them set is formatted as the empty text, whatever the bits of
    DottedUnderline, DashedUnderline, Framed and Encircled are. *)
Theorem format_CharacterStyleMask (mask : Z) :
  CharacterStyleMask.format mask
  = fold_right String.append EmptyString
      (map snd
         (List.filter
            (fun mapping : CharacterStyleMask.Mask * string =>
               negb (Z.land mask (CharacterStyleMask.value mapping.1) =? 0))
            CharacterStyleMask.mappings))
  /\ CharacterStyleMask.format (Z.land mask 0x3FF)
     = CharacterStyleMask.format mask
  /\ (Z.land mask 0x3FF = 0 -> CharacterStyleMask.format mask = EmptyString).
Proof.
  assert (Hlow : CharacterStyleMask.format (Z.land mask 0x3FF)
                 = CharacterStyleMask.format mask).
  { assert (Hf :
      List.filter
        (fun mapping : CharacterStyleMask.Mask * string =>
           negb (Z.land (Z.land mask 0x3FF)
                   (CharacterStyleMask.value mapping.1) =? 0))
        CharacterStyleMask.mappings
      = List.filter
          (fun mapping : CharacterStyleMask.Mask * string =>
             negb (Z.land mask (CharacterStyleMask.value mapping.1) =? 0))
          CharacterStyleMask.mappings).
    { apply List.filter_ext_in. intros mapping Hin.
      rewrite <- Z.land_assoc. do 3 f_equal.
      unfold CharacterStyleMask.mappings in Hin. simpl in Hin.
      repeat (destruct Hin as [<- | Hin]; [reflexivity |]).
      contradiction. }
    unfold CharacterStyleMask.format. rewrite !format_fold, Hf.
    reflexivity. }
  split; [| split; [exact Hlow |]].
  - unfold CharacterStyleMask.format. rewrite format_fold. reflexivity.
  - intros H. rewrite <- Hlow, H. reflexivity.
Qed.

Lemma Mask_value_disjoint (x y : CharacterStyleMask.Mask) :
  x <> y -> Z.land (CharacterStyleMask.value x) (CharacterStyleMask.value y) = 0.
Proof. destruct x, y; intros H; try reflexivity; contradiction. Qed.

Lemma Mask_value_positive (x : CharacterStyleMask.Mask) :
  0 < CharacterStyleMask.value x.
Proof. destruct x; reflexivity. Qed.

(** X17: the enumerators of the style mask are independent bits. After
    [a |= x] the style [x] is set, the mask is not empty, and every other
    style [y] is as it was in [a]; after [a &= x] the style [x] is as it
    was and every other style is clear. *)
Theorem style_assignments (a : Z) (x y : CharacterStyleMask.Mask) :
  Z.land (CharacterStyleMask.or_assign a (CharacterStyleMask.value x))
    (CharacterStyleMask.value x) = CharacterStyleMask.value x
  /\ CharacterStyleMask.not
       (CharacterStyleMask.or_assign a (CharacterStyleMask.value x)) = false
  /\ Z.land (CharacterStyleMask.and_assign a (CharacterStyleMask.value x))
       (CharacterStyleMask.value x)
     = Z.land a (CharacterStyleMask.value x)
  /\ (x <> y ->
      Z.land (CharacterStyleMask.or_assign a (CharacterStyleMask.value x))
        (CharacterStyleMask.value y)
      = Z.land a (CharacterStyleMask.value y)
      /\ Z.land (CharacterStyleMask.and_assign a (CharacterStyleMask.value x))
           (CharacterStyleMask.value y) = 0).
Proof.
  unfold CharacterStyleMask.or_assign, CharacterStyleMask.and_assign,
    CharacterStyleMask.not.
  pose proof (Mask_value_positive x) as Hpos.
  split; [| split; [| split]].
  - apply Z.bits_inj'. intros n _. rewrite Z.land_spec, Z.lor_spec.
    destruct (Z.testbit a n), (Z.testbit (CharacterStyleMask.value x) n);
      reflexivity.
  - apply Z.eqb_neq. rewrite Z.lor_eq_0_iff. lia.
  - rewrite <- Z.land_assoc, Z.land_diag. reflexivity.
  - intros Hne. split.
    + rewrite Z.land_lor_distr_l, (Mask_value_disjoint x y Hne).
      apply Z.lor_0_r.
    + rewrite <- Z.land_assoc, (Mask_value_disjoint x y Hne).
      apply Z.land_0_r.
Qed.

(** ** The further properties on the sample data *)

Lemma setCharacter_replaces_witness :
  Cell.typed sample_cell
  /\ 0x42 <> 0
  /\ Cell.codepoints sample_cell = [0x41; 0x0301]
  /\ Cell.codepoints
       (unchecked (Cell.setCharacter sample_width sample_cell 0x42)) = [0x42].
Proof.
  assert (H : Cell.typed sample_cell) by by_evaluation.
  assert (Hcp : 0x42 <> 0) by discriminate.
  split; [exact H |]. split; [exact Hcp |]. split; [reflexivity |].
  exact (proj1 (setCharacter_replaces sample_width sample_cell 0x42 H) Hcp).
Defined.

Lemma Cell_bounded_kept_witness :
  Cell_bounded sample_cell
  /\ Cell_bounded (Cell.appendCharacter sample_width sample_cell 0x1F600).2.
Proof.
  assert (H : Cell_bounded sample_cell)
    by (unfold Cell_bounded; by_evaluation).
  split; [exact H |].
  exact (proj1 (proj2 (proj2
    (Cell_bounded_kept sample_width sample_cell 0x1F600
       GraphicsAttributes_default None H)))).
Defined.

Lemma appendCharacter_keeps_witness :
  Cell.typed sample_cell_linked
  /\ is_u8 (sample_width 0x0301)
  /\ Cell.hyperlink
       (Cell.appendCharacter sample_width sample_cell_linked 0x0301).2
     = Cell.hyperlink sample_cell_linked
  /\ Cell.width sample_cell_linked
     <= Cell.width
          (Cell.appendCharacter sample_width sample_cell_linked 0x0301).2.
Proof.
  assert (H : Cell.typed sample_cell_linked) by by_evaluation.
  assert (Hu : is_u8 (sample_width 0x0301)) by by_evaluation.
  split; [exact H |]. split; [exact Hu |].
  pose proof (appendCharacter_keeps sample_width sample_cell_linked 0x0301
                H Hu) as K.
  split; [exact (proj1 (proj2 K)) | exact (proj2 (proj2 (proj2 K)))].
Defined.

Lemma Cell_eqb_views_witness :
  Cell_bounded sample_cell
  /\ Cell_bounded sample_cell_linked
  /\ (Cell.eqb sample_cell sample_cell_linked = true <->
      Cell.codepointCount sample_cell = Cell.codepointCount sample_cell_linked
      /\ Cell.attributes sample_cell = Cell.attributes sample_cell_linked
      /\ Cell.codepoints sample_cell = Cell.codepoints sample_cell_linked).
Proof.
  assert (Ha : Cell_bounded sample_cell)
    by (unfold Cell_bounded; by_evaluation).
  assert (Hb : Cell_bounded sample_cell_linked)
    by (unfold Cell_bounded; by_evaluation).
  split; [exact Ha |]. split; [exact Hb |].
  exact (Cell_eqb_views sample_cell sample_cell_linked Ha Hb).
Defined.

Lemma Range_length_contains_witness :
  is_u32 (Range.from (Range.mk 3 7))
  /\ is_u32 (Range.to (Range.mk 3 7))
  /\ Range.from (Range.mk 3 7) <= Range.to (Range.mk 3 7)
  /\ (Range.length (Range.mk 3 7) = 0 <->
      Range.from (Range.mk 3 7) = 0 /\ Range.to (Range.mk 3 7) = 2 ^ 32 - 1).
Proof.
  assert (Hf : is_u32 (Range.from (Range.mk 3 7))) by by_evaluation.
  assert (Ht : is_u32 (Range.to (Range.mk 3 7))) by by_evaluation.
  assert (Hle : Range.from (Range.mk 3 7) <= Range.to (Range.mk 3 7))
    by (simpl; lia).
  split; [exact Hf |]. split; [exact Ht |]. split; [exact Hle |].
  exact (proj1 (Range_length_contains (Range.mk 3 7) 5 Hf Ht Hle)).
Defined.

Lemma clampToScreen_contained_witness :
  1 <= rows (ScreenBuffer.size_ sample_buffer)
  /\ 1 <= columns (ScreenBuffer.size_ sample_buffer)
  /\ Screen.contains (ScreenBuffer.size_ sample_buffer)
       (ScreenBuffer.clampToScreen sample_buffer (mkCoordinate 0 99)) = true.
Proof.
  assert (Hr : 1 <= rows (ScreenBuffer.size_ sample_buffer)) by (simpl; lia).
  assert (Hc : 1 <= columns (ScreenBuffer.size_ sample_buffer))
    by (simpl; lia).
  split; [exact Hr |]. split; [exact Hc |].
  exact (proj1 (clampToScreen_contained sample_buffer (mkCoordinate 0 99)
                  Hr Hc)).
Defined.

Lemma clampCoordinate_regions_witness :
  1 <= rows (ScreenBuffer.size_ sample_origin_buffer)
  /\ 1 <= columns (ScreenBuffer.size_ sample_origin_buffer)
  /\ ScreenBuffer.cursorRestrictedToMargin sample_origin_buffer = true
  /\ Screen.contains (ScreenBuffer.size_ sample_origin_buffer)
       (ScreenBuffer.clampCoordinate sample_origin_buffer (mkCoordinate 0 99))
     = true.
Proof.
  assert (Hr : 1 <= rows (ScreenBuffer.size_ sample_origin_buffer))
    by (simpl; lia).
  assert (Hc : 1 <= columns (ScreenBuffer.size_ sample_origin_buffer))
    by (simpl; lia).
  assert (Hom : ScreenBuffer.cursorRestrictedToMargin sample_origin_buffer
                = true) by reflexivity.
  split; [exact Hr |]. split; [exact Hc |]. split; [exact Hom |].
  exact (proj1 (clampCoordinate_regions sample_origin_buffer
                  (mkCoordinate 0 99) Hr Hc) Hom).
Defined.

Lemma cursorPosition_of_real_witness :
  is_u32 (row (mkCoordinate 2 4))
  /\ is_u32 (column (mkCoordinate 2 4))
  /\ ScreenBuffer.toRealCoordinate sample_origin_buffer (mkCoordinate 2 4)
     = mkCoordinate 4 4
  /\ ScreenBuffer.cursorPosition
       (ScreenBuffer.set_cursor
          (Cursor.assign (ScreenBuffer.cursor sample_origin_buffer)
             (ScreenBuffer.toRealCoordinate sample_origin_buffer
                (mkCoordinate 2 4)))
          sample_origin_buffer)
     = mkCoordinate 2 4.
Proof.
  assert (Hr : is_u32 (row (mkCoordinate 2 4))) by by_evaluation.
  assert (Hc : is_u32 (column (mkCoordinate 2 4))) by by_evaluation.
  split; [exact Hr |]. split; [exact Hc |]. split; [reflexivity |].
  exact (cursorPosition_of_real sample_origin_buffer (mkCoordinate 2 4) Hr Hc).
Defined.

Lemma home_is_origin_witness :
  is_u32 (Range.from (vertical (ScreenBuffer.margin_ sample_origin_buffer)))
  /\ is_u32
       (Range.from (horizontal (ScreenBuffer.margin_ sample_origin_buffer)))
  /\ ScreenBuffer.origin sample_origin_buffer = mkCoordinate 3 1
  /\ ScreenBuffer.toRealCoordinate sample_origin_buffer (mkCoordinate 1 1)
     = ScreenBuffer.origin sample_origin_buffer.
Proof.
  assert (Hv : is_u32
    (Range.from (vertical (ScreenBuffer.margin_ sample_origin_buffer))))
    by by_evaluation.
  assert (Hh : is_u32
    (Range.from (horizontal (ScreenBuffer.margin_ sample_origin_buffer))))
    by by_evaluation.
  split; [exact Hv |]. split; [exact Hh |]. split; [reflexivity |].
  exact (proj1 (home_is_origin sample_origin_buffer Hv Hh)).
Defined.

Lemma make_invariants_witness :
  1 <= rows sample_size
  /\ 1 <= columns sample_size
  /\ ScreenBuffer.isCursorInsideMargins
       (ScreenBuffer.make ScreenBuffer.Alternate sample_size (Some 100))
     = true.
Proof.
  assert (Hr : 1 <= rows sample_size) by (simpl; lia).
  assert (Hc : 1 <= columns sample_size) by (simpl; lia).
  split; [exact Hr |]. split; [exact Hc |].
  exact (proj1 (proj2 (proj2
    (make_invariants ScreenBuffer.Alternate sample_size (Some 100) Hr Hc)))).
Defined.

Lemma updateCursorIterators_designates_witness :
  grid_shaped sample_painted_buffer
  /\ is_u32 (rows (ScreenBuffer.size_ sample_painted_buffer))
  /\ is_u32 (columns (ScreenBuffer.size_ sample_painted_buffer))
  /\ Screen.contains (ScreenBuffer.size_ sample_painted_buffer)
       (ScreenBuffer.realCursorPosition sample_painted_buffer) = true
  /\ exists (line : Line.t) (cell : Cell.t) (j : nat),
       ScreenBuffer.lines sample_painted_buffer
         !! ScreenBuffer.currentLine
              (ScreenBuffer.updateCursorIterators sample_painted_buffer)
       = Some line
       /\ ScreenBuffer.currentColumn
            (ScreenBuffer.updateCursorIterators sample_painted_buffer)
          = (ScreenBuffer.currentLine
               (ScreenBuffer.updateCursorIterators sample_painted_buffer), j)
       /\ Line.buffer line !! j = Some cell
       /\ Z.of_nat
            (ScreenBuffer.currentLine
               (ScreenBuffer.updateCursorIterators sample_painted_buffer))
          = row (Cursor.coord (ScreenBuffer.cursor sample_painted_buffer)) - 1
       /\ Z.of_nat j
          = column (Cursor.coord (ScreenBuffer.cursor sample_painted_buffer))
            - 1.
Proof.
  assert (Hg : grid_shaped sample_painted_buffer)
    by (split; [reflexivity | repeat constructor]).
  assert (Hr : is_u32 (rows (ScreenBuffer.size_ sample_painted_buffer)))
    by by_evaluation.
  assert (Hc : is_u32 (columns (ScreenBuffer.size_ sample_painted_buffer)))
    by by_evaluation.
  assert (Hin :
    Screen.contains (ScreenBuffer.size_ sample_painted_buffer)
      (ScreenBuffer.realCursorPosition sample_painted_buffer) = true)
    by reflexivity.
  split; [exact Hg |]. split; [exact Hr |]. split; [exact Hc |].
  split; [exact Hin |].
  exact (proj1 (updateCursorIterators_designates sample_painted_buffer
                  Hg Hr Hc Hin)).
Defined.

(** Bold and italic together are formatted without a separator, and the
    framed style alone as the empty text. *)
Example format_samples :
  CharacterStyleMask.format
    (CharacterStyleMask.or_assign
       (CharacterStyleMask.value CharacterStyleMask.Bold)
       (CharacterStyleMask.value CharacterStyleMask.Italic))
  = "bolditalic"%string
  /\ CharacterStyleMask.format
       (CharacterStyleMask.value CharacterStyleMask.Framed)
     = EmptyString.
Proof. split; reflexivity. Qed.

(** ** The current cell of the screen *)

Lemma deref_assign_eq (sb : ScreenBuffer.t) (it : nat * nat)
    (value old : Cell.t) :
  Screen.deref sb it = Some old ->
  Screen.deref (Screen.assign sb it value) it = Some value.
Proof.
  unfold Screen.deref, Screen.assign. simpl. intros H.
  rewrite list_lookup_alter_eq.
  destruct (ScreenBuffer.lines sb !! it.1) as [line |]; simpl in *;
    [| discriminate].
  apply list_lookup_insert_eq. apply lookup_lt_Some in H. exact H.
Qed.

Lemma deref_assign_ne (sb : ScreenBuffer.t) (it other : nat * nat)
    (value : Cell.t) :
  other <> it ->
  Screen.deref (Screen.assign sb it value) other = Screen.deref sb other.
Proof.
  unfold Screen.deref, Screen.assign. simpl. intros Hne.
  destruct (decide (it.1 = other.1)) as [E | E].
  - rewrite <- E, list_lookup_alter_eq.
    destruct (ScreenBuffer.lines sb !! it.1) as [line |]; simpl;
      [| reflexivity].
    apply list_lookup_insert_ne. intros E2. apply Hne.
    destruct it, other; simpl in *; congruence.
  - rewrite list_lookup_alter_ne by exact E. reflexivity.
Qed.

(** X18: when the current column iterator of the active buffer designates a
    cell of the grid, [currentCell(value)] makes [currentCell()] return
    [value], leaves every other cell of the active buffer as it is, keeps
    the number of lines, and leaves the other buffer and the active-buffer
    pointer untouched. *)
Theorem currentCell_assigned (s : Screen.t) (value old : Cell.t) :
  Screen.currentCell s = Some old ->
  Screen.currentCell (Screen.setCurrentCell s value) = Some value
  /\ (forall other : nat * nat,
        other <> ScreenBuffer.currentColumn (Screen.buffer s) ->
        Screen.deref (Screen.buffer (Screen.setCurrentCell s value)) other
        = Screen.deref (Screen.buffer s) other)
  /\ List.length
       (ScreenBuffer.lines (Screen.buffer (Screen.setCurrentCell s value)))
     = List.length (ScreenBuffer.lines (Screen.buffer s))
  /\ Screen.buffer_ (Screen.setCurrentCell s value) = Screen.buffer_ s
  /\ (Screen.isAlternateScreen s = true ->
      Screen.primaryBuffer_ (Screen.setCurrentCell s value)
      = Screen.primaryBuffer_ s)
  /\ (Screen.isPrimaryScreen s = true ->
      Screen.alternateBuffer_ (Screen.setCurrentCell s value)
      = Screen.alternateBuffer_ s).
Proof.
  unfold Screen.currentCell, Screen.setCurrentCell. intros H.
  assert (Hbuf : forall sb : ScreenBuffer.t,
            Screen.buffer (Screen.set_buffer sb s) = sb
            /\ Screen.buffer_ (Screen.set_buffer sb s) = Screen.buffer_ s).
  { intros sb. unfold Screen.buffer, Screen.set_buffer.
    destruct (Screen.buffer_ s) eqn:E; simpl; rewrite ?E; split; reflexivity. }
  destruct (Hbuf (Screen.assign (Screen.buffer s)
                    (ScreenBuffer.currentColumn (Screen.buffer s)) value))
    as [-> ->].
  split; [| split; [| split; [| split; [reflexivity | split]]]].
  - simpl. exact (deref_assign_eq _ _ _ _ H).
  - intros other Hne. apply deref_assign_ne. exact Hne.
  - simpl. apply length_alter.
  - unfold Screen.isAlternateScreen, Screen.set_buffer.
    destruct (Screen.buffer_ s); [discriminate | reflexivity].
  - unfold Screen.isPrimaryScreen, Screen.set_buffer.
    destruct (Screen.buffer_ s); [reflexivity | discriminate].
Qed.

Lemma currentCell_assigned_witness :
  Screen.currentCell sample_screen = Some sample_cell_linked
  /\ Screen.currentCell (Screen.setCurrentCell sample_screen Cell.default)
     = Some Cell.default.
Proof.
  assert (H : Screen.currentCell sample_screen = Some sample_cell_linked)
    by reflexivity.
  split; [exact H |].
  exact (proj1 (currentCell_assigned sample_screen Cell.default
                  sample_cell_linked H)).
Defined.
